(** * ClarityTasks: the task model, the store and the filtered view

    A shallow embedding of [ClarityTasks.py]: the [Task] dataclass with its
    derived status, [load_tasks] and [save_tasks], and the handlers of
    [TodoApp] that change the task list or rebuild the filtered index map.

    Conventions of the embedding.
    - Python [str] is [string]; characters are read as 7-bit ASCII, so case
      conversion and white space are the ASCII ones (a character above 127
      has no case and is not white space here).
    - A Python exception is a value of [exn]; code that can raise lives in
      the monad [res]; [try_except] is the [try ... except] statement.
    - The clock, the backing file, the failures of the disk and the message
      boxes that were shown are fields of [world], threaded through every
      operation. *)

From stdpp Require Import base tactics option list sorting strings gmap.
From Stdlib Require Import Ascii String Arith Lia.

Local Open Scope string_scope.
Local Open Scope nat_scope.

(* ================================================================== *)
(** ** Exceptions *)

Inductive exn :=
| ValueError | TypeError | AttributeError | IndexError | JSONDecodeError | OSError.

Inductive res (A : Type) :=
| Ret (a : A)
| Raise (e : exn).
Arguments Ret {A} a.
Arguments Raise {A} e.

Definition res_bind {A B} (m : res A) (k : A -> res B) : res B :=
  match m with
  | Ret a => k a
  | Raise e => Raise e
  end.

Notation "'let*' x ':=' m 'in' k" := (res_bind m (fun x => k))
  (at level 10, x name, m at level 100, k at level 200).

(** [try: body except e: handler], for a handler that takes no argument. *)
Definition try_except {A} (body : res A) (catches : exn -> bool) (handler : res A) : res A :=
  match body with
  | Ret a => Ret a
  | Raise e => if catches e then handler else Raise e
  end.

Definition is_ValueError (e : exn) : bool :=
  match e with ValueError => true | _ => false end.

(* ================================================================== *)
(** ** Text: the [str] methods the program calls *)

Definition code (c : ascii) : nat := nat_of_ascii c.

Definition between (lo hi : nat) (c : ascii) : bool :=
  (lo <=? code c) && (code c <=? hi).

(** [str.isspace] on ASCII: tab, line feed, vertical tab, form feed,
    carriage return, the four separators 28..31 and the space. *)
Definition is_space (c : ascii) : bool := between 9 13 c || between 28 32 c.

Definition is_digit (c : ascii) : bool := between 48 57 c.

Definition lower_char (c : ascii) : ascii :=
  if between 65 90 c then ascii_of_nat (code c + 32) else c.

Definition upper_char (c : ascii) : ascii :=
  if between 97 122 c then ascii_of_nat (code c - 32) else c.

Fixpoint lower (s : string) : string :=
  match s with
  | EmptyString => EmptyString
  | String c s' => String (lower_char c) (lower s')
  end.

(** [str.capitalize]: first character upper case, the rest lower case. *)
Definition capitalize (s : string) : string :=
  match s with
  | EmptyString => EmptyString
  | String c s' => String (upper_char c) (lower s')
  end.

Fixpoint lstrip (s : string) : string :=
  match s with
  | EmptyString => EmptyString
  | String c s' => if is_space c then lstrip s' else s
  end.

Fixpoint rstrip (s : string) : string :=
  match s with
  | EmptyString => EmptyString
  | String c s' =>
      match rstrip s' with
      | EmptyString => if is_space c then EmptyString else String c EmptyString
      | r => String c r
      end
  end.

Definition strip (s : string) : string := rstrip (lstrip s).

Fixpoint startswith (p s : string) : bool :=
  match p, s with
  | EmptyString, _ => true
  | String a p', String b s' => if Ascii.eqb a b then startswith p' s' else false
  | String _ _, EmptyString => false
  end.

(** [q in hay] on strings. *)
Fixpoint contains (q hay : string) : bool :=
  if startswith q hay then true
  else match hay with
       | EmptyString => false
       | String _ hay' => contains q hay'
       end.

(** Truth value of a string ([if s], [not s], [s or d]). *)
Definition truthy (s : string) : bool :=
  match s with EmptyString => false | _ => true end.

(** [s or d] where both are strings. *)
Definition str_or (s d : string) : string := if truthy s then s else d.

(** [s or None]. *)
Definition str_or_None (s : string) : option string :=
  if truthy s then Some s else None.

(** Truth value of a [str | None]. *)
Definition truthy_opt (o : option string) : bool :=
  match o with Some s => truthy s | None => false end.

(** [o or ''] for a [str | None]. *)
Definition opt_or_empty (o : option string) : string :=
  match o with Some s => if truthy s then s else "" | None => "" end.

(* ================================================================== *)
(** ** Calendar dates: [datetime.date] *)

Record date := mkDate { year : nat; month : nat; day : nat }.

Definition is_leap (y : nat) : bool :=
  (y mod 4 =? 0) && (negb (y mod 100 =? 0) || (y mod 400 =? 0)).

Definition days_in_month (y m : nat) : nat :=
  match m with
  | 2 => if is_leap y then 29 else 28
  | 4 | 6 | 9 | 11 => 30
  | _ => 31
  end.

(** The constructor [date(y, m, d)]: years 1..9999, a month of the year, a
    day of that month; anything else is a [ValueError]. *)
Definition date_new (y m d : nat) : res date :=
  if (1 <=? y) && (y <=? 9999) && (1 <=? m) && (m <=? 12)
     && (1 <=? d) && (d <=? days_in_month y m)
  then Ret (mkDate y m d)
  else Raise ValueError.

(** Dates compare as the tuples (year, month, day). *)
Definition date_ltb (a b : date) : bool :=
  (year a <? year b)
  || (year a =? year b) && ((month a <? month b)
                            || (month a =? month b) && (day a <? day b)).

Definition date_eqb (a b : date) : bool :=
  (year a =? year b) && (month a =? month b) && (day a =? day b).

Definition date_lt (a b : date) : Prop :=
  year a < year b
  \/ year a = year b /\ (month a < month b \/ month a = month b /\ day a < day b).

(* ================================================================== *)
(** ** [datetime.datetime.strptime(s, "%Y-%m-%d")]

    [strptime] turns the format into the regular expression
    [(?P<Y>\d\d\d\d)-(?P<m>1[0-2]|0[1-9]|[1-9])-(?P<d>3[0-1]|[1-2]\d|0[1-9]|[1-9]| [1-9])],
    matches it at the start of the text, refuses text that remains after
    the match, converts the three groups with [int] and builds the date.
    A matcher returns every way it can match, in the order a backtracking
    engine tries them, each with the text it leaves. *)

Definition matcher := string -> list (string * string).

Definition chr (p : ascii -> bool) : matcher := fun s =>
  match s with
  | String c s' => if p c then [(String c EmptyString, s')] else []
  | EmptyString => []
  end.

Definition lit (a : ascii) : matcher := chr (Ascii.eqb a).

Definition cat (r1 r2 : matcher) : matcher := fun s =>
  '(a, s1) ← r1 s; '(b, s2) ← r2 s1; [(a +:+ b, s2)].

Definition alt (r1 r2 : matcher) : matcher := fun s => (r1 s ++ r2 s)%list.

Definition re_Y : matcher :=
  cat (chr is_digit) (cat (chr is_digit) (cat (chr is_digit) (chr is_digit))).

Definition re_m : matcher :=
  alt (cat (lit "1") (chr (between 48 50)))
 (alt (cat (lit "0") (chr (between 49 57)))
      (chr (between 49 57))).

Definition re_d : matcher :=
  alt (cat (lit "3") (chr (between 48 49)))
 (alt (cat (chr (between 49 50)) (chr is_digit))
 (alt (cat (lit "0") (chr (between 49 57)))
 (alt (chr (between 49 57))
      (cat (lit " ") (chr (between 49 57)))))).

(** All matches of the whole expression, best first: the three groups and
    the text after the match. *)
Definition re_date (s : string) : list (string * string * string * string) :=
  '(y, s1) ← re_Y s;
  '(_, s2) ← lit "-" s1;
  '(m, s3) ← re_m s2;
  '(_, s4) ← lit "-" s3;
  '(d, s5) ← re_d s4;
  [(y, m, d, s5)].

(** [int(text)] for the texts the groups can hold: digits, after white
    space that [int] skips. *)
Fixpoint int_digits (s : string) (acc : nat) : nat :=
  match s with
  | EmptyString => acc
  | String c s' => int_digits s' (10 * acc + (code c - 48))
  end.

Definition py_int (s : string) : nat := int_digits (lstrip s) 0.

Definition strptime_date (s : string) : res date :=
  match re_date s with
  | [] => Raise ValueError                      (* does not match format *)
  | (y, m, d, rest) :: _ =>
      if truthy rest then Raise ValueError      (* unconverted data remains *)
      else date_new (py_int y) (py_int m) (py_int d)
  end.

(** The call [strptime(self.due, DATE_FMT)] with [due : str | None]: the
    first argument must be a [str]. *)
Definition strptime_arg (o : option string) : res date :=
  match o with
  | Some s => strptime_date s
  | None => Raise TypeError
  end.


(* ================================================================== *)
(** ** JSON values: what [json.load] returns and [json.dump] takes

    Objects are Python dicts, so maps from keys to values. Numbers are the
    integers; the program stores none. *)

#[warnings="-register-all"]
Inductive json :=
| JNull
| JBool (b : bool)
| JNum (n : Z)
| JStr (s : string)
| JArr (l : list json)
| JObj (d : gmap string json).

(** [bool(v)]. *)
Definition py_bool (v : json) : bool :=
  match v with
  | JNull => false
  | JBool b => b
  | JNum n => negb (Z.eqb n 0)
  | JStr s => truthy s
  | JArr l => match l with [] => false | _ => true end
  | JObj d => negb (bool_decide (d = ∅))
  end.

(** [for item in raw]: the elements of a list, the keys of a dict, the
    characters of a string; the other values are not iterable. *)
Fixpoint chars (s : string) : list json :=
  match s with
  | EmptyString => []
  | String c s' => JStr (String c EmptyString) :: chars s'
  end.

Definition py_iter (raw : json) : res (list json) :=
  match raw with
  | JArr l => Ret l
  | JObj d => Ret (JStr <$> (map_to_list d).*1)
  | JStr s => Ret (chars s)
  | JNull | JBool _ | JNum _ => Raise TypeError
  end.

(* ================================================================== *)
(** ** The Task dataclass *)

Record Task := mkTask {
  title : string;
  done : bool;
  priority : string;          (* Low, Medium, High *)
  due : option string;        (* YYYY-MM-DD or None *)
  created : string
}.

(** What the [class Task] statement leaves behind. Its body runs once, when
    the module is imported, and the default of [created] is the value the
    expression [datetime.datetime.now().strftime(...)] had then. *)
Record Task_class := { created_default : string }.

(** [Task(title=..., done=..., priority=..., due=..., created=...)]; an
    argument that the call leaves out is [None] here and takes the default
    of the field. *)
Definition Task_init (cls : Task_class) (title : string) (done : option bool)
    (priority : option string) (due : option (option string))
    (created : option string) : Task :=
  {| title := title;
     done := default false done;
     priority := default "Medium" priority;
     due := default None due;
     created := default (created_default cls) created |}.

Section Status.
(** [datetime.date.today()]. *)
Variable today : date.

Definition is_overdue (t : Task) : res bool :=
  if done t || negb (truthy_opt (due t)) then Ret false
  else
    try_except
      (let* d := strptime_arg (due t) in Ret (date_ltb d today))
      is_ValueError
      (Ret false).

Definition is_due_today (t : Task) : res bool :=
  if done t || negb (truthy_opt (due t)) then Ret false
  else
    try_except
      (let* d := strptime_arg (due t) in Ret (date_eqb d today))
      is_ValueError
      (Ret false).

(** The status column of a row. *)
Definition status (t : Task) : res string :=
  if done t then Ret "Done"
  else
    let* o := is_overdue t in
    if o then Ret "Overdue"
    else
      let* d := is_due_today t in
      Ret (if d then "Due Today" else "Pending").
End Status.

(* ================================================================== *)
(** ** The world outside the program *)

(** The text of the backing file. A complete JSON text is the document it
    encodes ([json.dump] writes it, [json.load] reads it back). [Cut] is a
    text that stops before a document is complete: the empty file that
    [open(DATA_FILE, "w")] leaves, or the beginning of a document whose
    writing failed; [json.load] refuses it. *)
Inductive content :=
| Doc (raw : json)
| Cut.

(** What the disk does at the next [with open(DATA_FILE, "w")] block. *)
Inductive fault :=
| Fine          (* the file is opened and written in full *)
| OpenFails     (* [open] raises, the file is left as it was *)
| WriteFails.   (* [open] has emptied the file, then the writing raises *)

Inductive dialog :=
| showerror (caption : string)
| showwarning (caption : string)
| showinfo (caption : string).

Record world := mkWorld {
  clock : string;             (* datetime.datetime.now().strftime("%Y-%m-%d %H:%M:%S") *)
  today : date;               (* datetime.date.today() *)
  file : option content;      (* DATA_FILE; None when it does not exist *)
  disk : list fault;          (* the coming write blocks; none left: Fine *)
  opened_w : nat;             (* how often DATA_FILE was opened for writing *)
  shown : list dialog         (* the message boxes shown so far *)
}.

Definition say (d : dialog) (w : world) : world :=
  mkWorld (clock w) (today w) (file w) (disk w) (opened_w w) (shown w ++ [d])%list.

Definition with_file (c : option content) (w : world) : world :=
  mkWorld (clock w) (today w) c (disk w) (opened_w w) (shown w).

(** Entering a write block: one more opening, one plan of the disk used. *)
Definition enter_write (w : world) : fault * world :=
  (default Fine (head (disk w)),
   mkWorld (clock w) (today w) (file w) (tail (disk w)) (S (opened_w w)) (shown w)).

(* ================================================================== *)
(** ** Storage *)

(** [asdict(t)]. *)
Definition asdict (t : Task) : gmap string json :=
  <["title" := JStr (title t)]>
  (<["done" := JBool (done t)]>
  (<["priority" := JStr (priority t)]>
  (<["due" := match due t with Some s => JStr s | None => JNull end]>
  (<["created" := JStr (created t)]> ∅)))).

(** The value [[asdict(t) for t in tasks]] that is handed to [json.dump]. *)
Definition dumped (tasks : list Task) : json :=
  JArr ((fun t => JObj (asdict t)) <$> tasks).

Definition save_tasks (tasks : list Task) (w : world) : world :=
  let '(f, w1) := enter_write w in
  match f with
  | OpenFails => say (showerror "Save Error") w1
  | WriteFails => say (showerror "Save Error") (with_file (Some Cut) w1)
  | Fine => with_file (Some (Doc (dumped tasks))) w1
  end.

(** [json.load(f)]. *)
Definition json_load (c : content) : res json :=
  match c with
  | Doc raw => Ret raw
  | Cut => Raise JSONDecodeError
  end.

(** [d.get(key, dflt)]. *)
Definition dict_get (d : gmap string json) (key : string) (dflt : json) : json :=
  default dflt (d !! key).

(** The fields of [Task] are typed. A value of the declared type goes into
    the field; Python would store any other value as it is, and the typed
    record cannot: the functions below answer [None] there, and the task
    list is then outside this model. *)
Definition as_str (v : json) : option string :=
  match v with JStr s => Some s | _ => None end.

Definition as_str_or_None (v : json) : option (option string) :=
  match v with JStr s => Some (Some s) | JNull => Some None | _ => None end.

(** The call [Task(title=item.get("title", ""), ...)] of the loop. *)
Definition Task_of_item (cls : Task_class) (now : string) (d : gmap string json)
    : option Task :=
  t ← as_str (dict_get d "title" (JStr ""));
  p ← as_str (dict_get d "priority" (JStr "Medium"));
  u ← as_str_or_None (dict_get d "due" JNull);
  c ← as_str (dict_get d "created" (JStr now));
  Some (Task_init cls t (Some (py_bool (dict_get d "done" (JBool false))))
          (Some p) (Some u) (Some c)).

(** The loop [for item in raw: tasks.append(Task(...))]. An item that is not
    a dict has no [get]. *)
Fixpoint load_loop (cls : Task_class) (now : string) (raw : list json)
    (tasks : option (list Task)) : res (option (list Task)) :=
  match raw with
  | [] => Ret tasks
  | JObj d :: raw' =>
      load_loop cls now raw'
        (ts ← tasks; t ← Task_of_item cls now d; Some (ts ++ [t])%list)
  | _ :: _ => Raise AttributeError
  end.

(** [load_tasks()]. The answer [None] stands for a task list that holds a
    value of an undeclared type (see [as_str]). Reading is taken not to
    fail on the side of the disk. *)
Definition load_tasks (cls : Task_class) (w : world) : option (list Task) * world :=
  match file w with
  | None => (Some [], w)
  | Some c =>
      match (let* raw := json_load c in
             let* items := py_iter raw in
             load_loop cls (clock w) items (Some [])) with
      | Ret tasks => (tasks, w)
      | Raise _ => (Some [], say (showerror "Load Error") w)
      end
  end.

(* ================================================================== *)
(** ** The controller *)

(** A row of the tree: the values of its four columns. The row at place
    [k] has the identifier [str(k)]. *)
Definition row : Type := string * string * string * string.

Record TodoApp := mkApp {
  tasks : list Task;
  filtered_indices : list nat;   (* map view rows -> self.tasks index *)
  search_var : string;
  filter_var : string;
  title_var : string;
  priority_var : string;
  due_var : string;
  tree : list row;
  selection : option Z           (* int(sel[0]) of tree.selection(), if any *)
}.

Definition with_tasks (ts : list Task) (a : TodoApp) : TodoApp :=
  mkApp ts (filtered_indices a) (search_var a) (filter_var a) (title_var a)
        (priority_var a) (due_var a) (tree a) (selection a).

Definition with_view (ix : list nat) (rows : list row) (a : TodoApp) : TodoApp :=
  mkApp (tasks a) ix (search_var a) (filter_var a) (title_var a)
        (priority_var a) (due_var a) rows None.

Definition with_search (q : string) (a : TodoApp) : TodoApp :=
  mkApp (tasks a) (filtered_indices a) q (filter_var a) (title_var a)
        (priority_var a) (due_var a) (tree a) (selection a).

Definition with_filter (f : string) (a : TodoApp) : TodoApp :=
  mkApp (tasks a) (filtered_indices a) (search_var a) f (title_var a)
        (priority_var a) (due_var a) (tree a) (selection a).

Definition with_entries (t p d : string) (a : TodoApp) : TodoApp :=
  mkApp (tasks a) (filtered_indices a) (search_var a) (filter_var a) t p d
        (tree a) (selection a).

(** *** Helpers *)

Definition _valid_date (s : string) : res bool :=
  try_except (let* _d := strptime_date s in Ret true) is_ValueError (Ret false).

Definition _selected_index (a : TodoApp) : option nat :=
  match selection a with
  | None => None
  | Some view_row =>
      if (view_row <? 0)%Z || (view_row >=? Z.of_nat (List.length (filtered_indices a)))%Z
      then None
      else filtered_indices a !! Z.to_nat view_row
  end.

Definition _matches_filter (today : date) (f : string) (t : Task) : res bool :=
  if String.eqb f "All" then Ret true
  else if String.eqb f "Active" then Ret (negb (done t))
  else if String.eqb f "Completed" then Ret (done t)
  else if String.eqb f "Due Today" then is_due_today today t
  else if String.eqb f "Overdue" then is_overdue today t
  else if String.eqb f "High Priority"
       then Ret (String.eqb (priority t) "High" && negb (done t))
  else Ret true.

(** The text [f"{t.title} {t.priority} {t.due or ''}"]. *)
Definition haystack (t : Task) : string :=
  title t +:+ " " +:+ priority t +:+ " " +:+ opt_or_empty (due t).

Definition _matches_search (search : string) (t : Task) : bool :=
  let q := lower (strip search) in
  if negb (truthy q) then true
  else contains q (lower (haystack t)).

(** *** refresh_view *)

(** The loop over [enumerate(self.tasks)], from index [i] on. *)
Fixpoint index_loop (today : date) (f q : string) (i : nat) (ts : list Task)
    (filtered : list nat) : res (list nat) :=
  match ts with
  | [] => Ret filtered
  | t :: ts' =>
      let* m := _matches_filter today f t in
      index_loop today f q (S i) ts'
        (if m && _matches_search q t then (filtered ++ [i])%list else filtered)
  end.

(** The loop that inserts the rows. *)
Fixpoint row_loop (today : date) (ts : list Task) (ix : list nat) : res (list row) :=
  match ix with
  | [] => Ret []
  | i :: ix' =>
      match ts !! i with
      | None => Raise IndexError
      | Some t =>
          let* st := status today t in
          let* rows := row_loop today ts ix' in
          Ret ((title t, priority t, opt_or_empty (due t), st) :: rows)
      end
  end.

(** [refresh_view]: empty the tree (and with it the selection), rebuild
    the index map, insert the rows, and save. The text of the status bar
    is not part of the model. *)
Definition refresh_view (a : TodoApp) (w : world) : res (TodoApp * world) :=
  let* ix := index_loop (today w) (filter_var a) (search_var a) 0 (tasks a) [] in
  let* rows := row_loop (today w) (tasks a) ix in
  Ret (with_view ix rows a, save_tasks (tasks a) w).

(** The traces on [search_var] and [filter_var]: writing the variable
    calls [refresh_view]. *)
Definition search_var_set (q : string) (a : TodoApp) (w : world) : res (TodoApp * world) :=
  refresh_view (with_search q a) w.

Definition filter_var_set (f : string) (a : TodoApp) (w : world) : res (TodoApp * world) :=
  refresh_view (with_filter f a) w.

(** *** Actions *)

Definition add_task (cls : Task_class) (a : TodoApp) (w : world) : res (TodoApp * world) :=
  let title := strip (title_var a) in
  let prio := str_or (strip (priority_var a)) "Medium" in
  let due := str_or_None (strip (due_var a)) in
  if negb (truthy title) then Ret (a, say (showwarning "Missing Title") w)
  else
    let* bad := match due with
                | Some s => let* ok := _valid_date s in Ret (truthy s && negb ok)
                | None => Ret false
                end in
    if bad then Ret (a, say (showwarning "Invalid Date") w)
    else
      let ts := (tasks a ++ [Task_init cls title None (Some prio) (Some due) None])%list in
      let w1 := save_tasks ts w in
      refresh_view (with_entries "" "Medium" "" (with_tasks ts a)) w1.

(** [edit_selected]; the three answers are what [askstring] returns for the
    title, the priority and the due date ([None]: the dialog was
    cancelled). A dialog is only asked when the ones before it were
    answered. *)
Definition edit_selected (ans_title ans_prio ans_due : option string)
    (a : TodoApp) (w : world) : res (TodoApp * world) :=
  match _selected_index a with
  | None => Ret (a, say (showinfo "Select Task") w)
  | Some idx =>
      match tasks a !! idx with
      | None => Raise IndexError
      | Some t =>
          match ans_title with
          | None => Ret (a, w)
          | Some new_title =>
              let new_title := str_or (strip new_title) (title t) in
              match ans_prio with
              | None => Ret (a, w)
              | Some new_prio =>
                  let new_prio := capitalize new_prio in
                  if negb (bool_decide (new_prio ∈ ["Low"; "Medium"; "High"]))
                  then Ret (a, say (showwarning "Invalid Priority") w)
                  else
                    match ans_due with
                    | None => Ret (a, w)
                    | Some new_due =>
                        let new_due := str_or_None (strip new_due) in
                        let* bad := match new_due with
                                    | Some s => let* ok := _valid_date s in
                                                Ret (truthy s && negb ok)
                                    | None => Ret false
                                    end in
                        if bad then Ret (a, say (showwarning "Invalid Date") w)
                        else
                          let t' := mkTask new_title (done t) new_prio new_due (created t) in
                          let ts := <[idx := t']> (tasks a) in
                          refresh_view (with_tasks ts a) (save_tasks ts w)
                    end
              end
          end
      end
  end.

Definition clear_completed (a : TodoApp) (w : world) : res (TodoApp * world) :=
  let before := List.length (tasks a) in
  let ts := List.filter (fun t => negb (done t)) (tasks a) in
  let a1 := with_tasks ts a in
  if negb (List.length ts =? before)
  then refresh_view a1 (save_tasks ts w)
  else Ret (a1, w).

Definition with_selection (sel : option Z) (a : TodoApp) : TodoApp :=
  mkApp (tasks a) (filtered_indices a) (search_var a) (filter_var a) (title_var a)
        (priority_var a) (due_var a) (tree a) sel.

(** [toggle_selected]: the assignment [self.tasks[idx].done = not
    self.tasks[idx].done] changes the one task in place. *)
Definition toggle_selected (a : TodoApp) (w : world) : res (TodoApp * world) :=
  match _selected_index a with
  | None => Ret (a, w)
  | Some idx =>
      match tasks a !! idx with
      | None => Raise IndexError
      | Some t =>
          let t' := mkTask (title t) (negb (done t)) (priority t) (due t) (created t) in
          let ts := <[idx := t']> (tasks a) in
          refresh_view (with_tasks ts a) (save_tasks ts w)
      end
  end.

(** [delete_selected]; [yes] is the answer to [askyesno] (the question box
    is not among the boxes that [shown] records). [self.tasks.pop(idx)]
    removes the task at [idx]. *)
Definition delete_selected (yes : bool) (a : TodoApp) (w : world)
    : res (TodoApp * world) :=
  match _selected_index a with
  | None => Ret (a, w)
  | Some idx =>
      match tasks a !! idx with
      | None => Raise IndexError
      | Some _ =>
          if yes
          then let ts := delete idx (tasks a) in
               refresh_view (with_tasks ts a) (save_tasks ts w)
          else Ret (a, w)
      end
  end.

(** [TodoApp.__init__]: load the tasks, set the variables, build the
    widgets (an empty tree, nothing selected) and fill the view. [None]
    when the loaded list is outside the typed model (see [as_str]). *)
Definition TodoApp_init (cls : Task_class) (w : world) : option (res (TodoApp * world)) :=
  let '(loaded, w1) := load_tasks cls w in
  ts ← loaded;
  Some (refresh_view (mkApp ts [] "" "All" "" "Medium" "" [] None) w1).

(** *** The main loop

    What the user and the world outside can do between two handlers, and
    the handler that [_build_ui] and [_bind_shortcuts] attach to each
    widget or key. *)
Inductive event :=
| Type_title (s : string)              (* the Task entry *)
| Choose_priority (p : string)         (* the Priority combobox *)
| Type_due (s : string)                (* the Due entry *)
| Select_row (sel : option Z)          (* a click in the tree *)
| Type_search (q : string)             (* the Search entry: trace, refresh_view *)
| Choose_filter (f : string)           (* the Filter combobox: trace, refresh_view *)
| Press_add                            (* button Add Task, <Return> *)
| Press_edit (ans_title ans_prio ans_due : option string)   (* button Edit, double click *)
| Press_toggle                         (* button Toggle Done, <Control-d> *)
| Press_delete (yes : bool)            (* button Delete, <Delete> *)
| Press_clear                          (* button Clear Completed *)
| Time_passes (now : string) (day : date) (plan : list fault).

Definition handle (cls : Task_class) (ev : event) (a : TodoApp) (w : world)
    : res (TodoApp * world) :=
  match ev with
  | Type_title s => Ret (with_entries s (priority_var a) (due_var a) a, w)
  | Choose_priority p => Ret (with_entries (title_var a) p (due_var a) a, w)
  | Type_due s => Ret (with_entries (title_var a) (priority_var a) s a, w)
  | Select_row sel => Ret (with_selection sel a, w)
  | Type_search q => search_var_set q a w
  | Choose_filter f => filter_var_set f a w
  | Press_add => add_task cls a w
  | Press_edit t p d => edit_selected t p d a w
  | Press_toggle => toggle_selected a w
  | Press_delete yes => delete_selected yes a w
  | Press_clear => clear_completed a w
  | Time_passes now day plan =>
      Ret (a, mkWorld now day (file w) plan (opened_w w) (shown w))
  end.

(** The events of a session, one after the other; an exception that no
    handler catches ends the run here. *)
Fixpoint run (cls : Task_class) (evs : list event) (a : TodoApp) (w : world)
    : res (TodoApp * world) :=
  match evs with
  | [] => Ret (a, w)
  | ev :: evs' =>
      let* aw := handle cls ev a w in
      run cls evs' (fst aw) (snd aw)
  end.

(* ================================================================== *)
(** * The words of the specification *)

(** A due text is parseable when [strptime] returns a date for it. *)
Definition parseable (s : string) : Prop := exists d, strptime_date s = Ret d.

(** ** The filter and the search, as the specification words them *)

Inductive filter_mode :=
| All | Active | Completed | DueToday | Overdue | HighPriority.

(** The text the combobox holds for a mode. *)
Definition mode_text (m : filter_mode) : string :=
  match m with
  | All => "All"
  | Active => "Active"
  | Completed => "Completed"
  | DueToday => "Due Today"
  | Overdue => "Overdue"
  | HighPriority => "High Priority"
  end.

(** Filter mode of the specification: All (always true), Active (not
    done), Completed (done), Due Today, Overdue, High Priority (priority
    High and not done). *)
Definition spec_filter (today : date) (m : filter_mode) (t : Task) : Prop :=
  match m with
  | All => True
  | Active => done t = false
  | Completed => done t = true
  | DueToday => is_due_today today t = Ret true
  | Overdue => is_overdue today t = Ret true
  | HighPriority => priority t = "High" /\ done t = false
  end.

(** The due date as text, empty when absent. *)
Definition due_text (t : Task) : string :=
  match due t with Some s => s | None => "" end.

(** An empty or white-space-only text. *)
Definition blank (s : string) : Prop :=
  forall c, In c (list_ascii_of_string s) -> is_space c = true.

(** Search text of the specification: the trimmed query, without regard
    to case, is a part of title, priority and due joined by single spaces;
    an empty or blank query matches everything. *)
Definition spec_search (search : string) (t : Task) : Prop :=
  blank search
  \/ exists pre post,
       lower (title t +:+ " " +:+ priority t +:+ " " +:+ due_text t)
       = pre +:+ lower (strip search) +:+ post.

Definition visible (today : date) (m : filter_mode) (search : string) (t : Task) : Prop :=
  spec_filter today m t /\ spec_search search t.

(** The test of the loop of [refresh_view], on a task. *)
Definition shows (today : date) (f q : string) (t : Task) : Prop :=
  _matches_filter today f t = Ret true /\ _matches_search q t = true.

(** ** Stored records *)

Definition is_text (v : json) : Prop := exists s, v = JStr s.

Definition is_text_or_null (v : json) : Prop := v = JNull \/ is_text v.

(** A stored record as the specification describes it: the fields that are
    present have the type of the dataclass field ([done] may hold
    anything, [bool] accepts every value). *)
Definition record_typed (d : gmap string json) : Prop :=
  (forall v, d !! "title" = Some v -> is_text v)
  /\ (forall v, d !! "priority" = Some v -> is_text v)
  /\ (forall v, d !! "due" = Some v -> is_text_or_null v)
  /\ (forall v, d !! "created" = Some v -> is_text v).

Definition stored_record (item : json) : Prop :=
  exists d, item = JObj d /\ record_typed d.

(** ** Priorities, entries, the clock *)

(** The enumerated priorities. *)
Definition listed_priority (p : string) : Prop := p ∈ ["Low"; "Medium"; "High"].

(** An application with an empty store and the three entry variables set. *)
Definition entries (t p d : string) : TodoApp :=
  mkApp [] [] "" "All" t p d [] None.

(** Time passes: the clock and the calendar show other values. *)
Definition with_clock (now : string) (day : date) (w : world) : world :=
  mkWorld now day (file w) (disk w) (opened_w w) (shown w).

(** ** Invariants of a session *)

(** Every entry of the index map is a position of the store. *)
Definition view_ok (a : TodoApp) : Prop :=
  forall i, i ∈ filtered_indices a -> i < List.length (tasks a).

(** A task as the entry fields let it be: a title that is not empty and a
    due date that is absent or a date. *)
Definition task_ok (t : Task) : Prop :=
  title t <> "" /\ (due t = None \/ exists s, due t = Some s /\ parseable s).

(** The combobox of the priority is read-only and offers the three. *)
Definition offers_listed (ev : event) : Prop :=
  match ev with
  | Choose_priority p => listed_priority p
  | _ => True
  end.

(** The position [j] of the store holds a task that the loop of
    [refresh_view] lets through. *)
Definition shown_at (today : date) (f q : string) (ts : list Task) (j : nat) : Prop :=
  exists t, ts !! j = Some t /\ shows today f q t.

(** The task with its [done] flag negated, all else as it is. *)
Definition flipped (t : Task) : Task :=
  mkTask (title t) (negb (done t)) (priority t) (due t) (created t).

(** ** The canonical text of a date *)

Definition digit_char (k : nat) : ascii := ascii_of_nat (48 + k).

Definition two_digits (n : nat) : string :=
  String (digit_char (n / 10)) (String (digit_char (n mod 10)) EmptyString).

(** [YYYY-MM-DD], every field padded with zeros. *)
Definition iso_text (d : date) : string :=
  two_digits (year d / 100) +:+ two_digits (year d mod 100) +:+ "-"
  +:+ two_digits (month d) +:+ "-" +:+ two_digits (day d).

(* ================================================================== *)
(** * Properties *)

(** ** strptime on some texts *)

Example strptime_plain :
  strptime_date "2000-01-01" = Ret (mkDate 2000 1 1).
Proof. reflexivity. Qed.

Example strptime_short_fields :
  strptime_date "2024-2-9" = Ret (mkDate 2024 2 9).
Proof. reflexivity. Qed.

Example strptime_no_such_day :
  strptime_date "2023-02-29" = Raise ValueError.
Proof. reflexivity. Qed.

Example strptime_leap_day :
  strptime_date "2024-02-29" = Ret (mkDate 2024 2 29).
Proof. reflexivity. Qed.

Example strptime_month_13 :
  strptime_date "2024-13-01" = Raise ValueError.
Proof. reflexivity. Qed.

Example strptime_trailing :
  strptime_date "2024-01-32" = Raise ValueError.
Proof. reflexivity. Qed.

Example strptime_words :
  strptime_date "tomorrow" = Raise ValueError.
Proof. reflexivity. Qed.


(** ** Text *)

Lemma truthy_false (s : string) : truthy s = false <-> s = "".
Proof. destruct s; simpl; split; intros H; congruence. Qed.

Lemma truthy_true (s : string) : truthy s = true <-> s <> "".
Proof. destruct s; simpl; split; intros H; congruence. Qed.

Lemma lower_empty (s : string) : lower s = "" <-> s = "".
Proof. destruct s; simpl; split; intros H; congruence. Qed.

Lemma app_String (c : ascii) (s t : string) :
  String c s +:+ t = String c (s +:+ t).
Proof. reflexivity. Qed.

Lemma startswith_spec (p s : string) :
  startswith p s = true <-> exists post, s = p +:+ post.
Proof.
  revert s. induction p as [|a p IH]; intros s; simpl.
  - split; [intros _; exists s; reflexivity | reflexivity].
  - destruct s as [|b s].
    + split; [discriminate | intros [post H]; discriminate].
    + destruct (Ascii.eqb_spec a b) as [->|Hab].
      * rewrite IH. split; intros [post H]; exists post;
          rewrite ?app_String in *; congruence.
      * split; [discriminate | intros [post H]; rewrite app_String in H; congruence].
Qed.

(** [q in hay] holds exactly when [hay] is some text, then [q], then some
    text. *)
Lemma contains_spec (q hay : string) :
  contains q hay = true <-> exists pre post, hay = pre +:+ q +:+ post.
Proof.
  induction hay as [|c hay IH]; simpl.
  - destruct (startswith q "") eqn:E.
    + apply startswith_spec in E as [post E].
      split; [intros _; exists "", post; exact E | reflexivity].
    + split; [discriminate |].
      intros [pre [post H]]. destruct pre; [|discriminate].
      assert (startswith q "" = true) by (apply startswith_spec; eauto).
      congruence.
  - destruct (startswith q (String c hay)) eqn:E.
    + apply startswith_spec in E as [post E].
      split; [intros _; exists "", post; exact E | reflexivity].
    + rewrite IH. split.
      * intros [pre [post H]]. exists (String c pre), post.
        rewrite app_String. congruence.
      * intros [pre [post H]]. destruct pre as [|c' pre].
        -- assert (startswith q (String c hay) = true)
             by (apply startswith_spec; eauto).
           congruence.
        -- rewrite app_String in H. injection H as _ H. eauto.
Qed.

Lemma lstrip_blank (s : string) : blank s -> lstrip s = "".
Proof.
  unfold blank. induction s as [|c s IH]; simpl; intros H; [reflexivity|].
  rewrite (H c) by auto. apply IH. intros c' Hc'. apply H. auto.
Qed.

Lemma rstrip_empty (s : string) : rstrip s = "" -> blank s.
Proof.
  unfold blank. induction s as [|c s IH]; simpl; intros H c' Hc'; [contradiction|].
  destruct (rstrip s) eqn:E; [|discriminate H].
  destruct (is_space c) eqn:Ec; [|discriminate H].
  destruct Hc' as [<-|Hc']; [exact Ec | apply IH; [reflexivity | exact Hc']].
Qed.

Lemma lstrip_rest (s : string) (c : ascii) :
  In c (list_ascii_of_string s) ->
  is_space c = true \/ In c (list_ascii_of_string (lstrip s)).
Proof.
  induction s as [|a s IH]; simpl; [contradiction|].
  destruct (is_space a) eqn:Ea.
  - intros [<-|H]; [left; exact Ea | apply IH, H].
  - intros H. right. exact H.
Qed.

(** A text strips to the empty text exactly when it is empty or white
    space only. *)
Lemma strip_blank (s : string) : strip s = "" <-> blank s.
Proof.
  unfold strip. split.
  - intros H c Hc. destruct (lstrip_rest s c Hc) as [Hs|Hl]; [exact Hs|].
    apply (rstrip_empty _ H), Hl.
  - intros H. rewrite lstrip_blank by exact H. reflexivity.
Qed.

(** ** Dates *)

Lemma date_ltb_lt (a b : date) : date_ltb a b = true <-> date_lt a b.
Proof.
  unfold date_ltb, date_lt.
  rewrite orb_true_iff, !andb_true_iff, orb_true_iff, andb_true_iff.
  rewrite !Nat.ltb_lt, !Nat.eqb_eq. reflexivity.
Qed.

Lemma date_eqb_eq (a b : date) : date_eqb a b = true <-> a = b.
Proof.
  unfold date_eqb. rewrite !andb_true_iff, !Nat.eqb_eq.
  destruct a, b; simpl. split.
  - intros [[-> ->] ->]. reflexivity.
  - intros [= -> -> ->]. auto.
Qed.

(** [strptime] raises nothing but [ValueError]. *)
Lemma strptime_date_raises (s : string) (e : exn) :
  strptime_date s = Raise e -> e = ValueError.
Proof.
  unfold strptime_date.
  destruct (re_date s) as [|[[[y m] d] rest] l]; [congruence|].
  destruct (truthy rest); [congruence|].
  unfold date_new. case_match; congruence.
Qed.

Lemma parseable_nonempty (s : string) : parseable s -> truthy s = true.
Proof. intros [d H]. destruct s; [discriminate H | reflexivity]. Qed.

(** ** Derived status of a task *)

Section StatusFacts.
Variable today : date.

Lemma is_overdue_unfold (t : Task) :
  is_overdue today t =
  if done t then Ret false
  else match due t with
       | None => Ret false
       | Some s =>
           if truthy s
           then match strptime_date s with
                | Ret d => Ret (date_ltb d today)
                | Raise _ => Ret false
                end
           else Ret false
       end.
Proof.
  unfold is_overdue, try_except, res_bind, strptime_arg.
  destruct (done t); [reflexivity|]. simpl.
  destruct (due t) as [s|]; [|reflexivity]. simpl.
  destruct (truthy s); [|reflexivity]. simpl.
  destruct (strptime_date s) as [d|e] eqn:E; [reflexivity|].
  apply strptime_date_raises in E as ->. reflexivity.
Qed.

Lemma is_due_today_unfold (t : Task) :
  is_due_today today t =
  if done t then Ret false
  else match due t with
       | None => Ret false
       | Some s =>
           if truthy s
           then match strptime_date s with
                | Ret d => Ret (date_eqb d today)
                | Raise _ => Ret false
                end
           else Ret false
       end.
Proof.
  unfold is_due_today, try_except, res_bind, strptime_arg.
  destruct (done t); [reflexivity|]. simpl.
  destruct (due t) as [s|]; [|reflexivity]. simpl.
  destruct (truthy s); [|reflexivity]. simpl.
  destruct (strptime_date s) as [d|e] eqn:E; [reflexivity|].
  apply strptime_date_raises in E as ->. reflexivity.
Qed.

(** Neither method lets an exception out. *)
Lemma is_overdue_returns (t : Task) : exists b, is_overdue today t = Ret b.
Proof.
  rewrite is_overdue_unfold.
  repeat (case_match; eauto).
Qed.

Lemma is_due_today_returns (t : Task) : exists b, is_due_today today t = Ret b.
Proof.
  rewrite is_due_today_unfold.
  repeat (case_match; eauto).
Qed.

Lemma status_returns (t : Task) : exists st, status today t = Ret st.
Proof.
  unfold status. destruct (done t); [eauto|].
  destruct (is_overdue_returns t) as [o ->]. simpl.
  destruct o; [eauto|].
  destruct (is_due_today_returns t) as [d ->]. simpl. eauto.
Qed.
End StatusFacts.

(** C5. For every task and every current date: both [is_overdue] and
    [is_due_today] return (no exception leaves them); when the task is
    done, or has no due date, or has a due text that [strptime] does not
    parse under [%Y-%m-%d], both return False; otherwise, with [d] the
    parsed date, [is_overdue] is True exactly when [d] is strictly before
    today and [is_due_today] is True exactly when [d] is today. *)
Theorem overdue_and_due_today (today : date) (t : Task) :
  (exists o, is_overdue today t = Ret o)
  /\ (exists u, is_due_today today t = Ret u)
  /\ (done t = true \/ due t = None
      \/ (exists s, due t = Some s /\ ~ parseable s) ->
      is_overdue today t = Ret false /\ is_due_today today t = Ret false)
  /\ (forall s d, done t = false -> due t = Some s -> strptime_date s = Ret d ->
      (is_overdue today t = Ret true <-> date_lt d today)
      /\ (is_due_today today t = Ret true <-> d = today)).
Proof.
  split; [apply is_overdue_returns|].
  split; [apply is_due_today_returns|].
  rewrite is_overdue_unfold, is_due_today_unfold. split.
  - intros [Hd | [Hn | [s [Hs Hp]]]].
    + rewrite Hd. auto.
    + rewrite Hn. destruct (done t); auto.
    + rewrite Hs. destruct (done t); [auto|].
      destruct (truthy s); [|auto].
      destruct (strptime_date s) as [d|e] eqn:E; [|auto].
      exfalso. apply Hp. exists d. exact E.
  - intros s d Hd Hs Hp. rewrite Hd, Hs, Hp.
    rewrite (parseable_nonempty s) by (exists d; exact Hp).
    split.
    + rewrite <- date_ltb_lt. split; [intros [= ->]; reflexivity | intros ->; reflexivity].
    + rewrite <- date_eqb_eq. split; [intros [= ->]; reflexivity | intros ->; reflexivity].
Qed.

(** The test of the repository, on a day of 2025, and the three ways to
    False. *)
Lemma overdue_and_due_today_witness :
  is_overdue (mkDate 2025 9 4) (mkTask "Demo" false "Medium" (Some "2000-01-01") "") = Ret true
  /\ is_due_today (mkDate 2025 9 4) (mkTask "Demo" false "Medium" (Some "2025-09-04") "") = Ret true
  /\ is_overdue (mkDate 2025 9 4) (mkTask "Demo" false "Medium" (Some "soon") "") = Ret false
  /\ is_overdue (mkDate 2025 9 4) (mkTask "Demo" true "Medium" (Some "2000-01-01") "") = Ret false.
Proof.
  split; [|split; [|split]].
  - apply (overdue_and_due_today (mkDate 2025 9 4)
             (mkTask "Demo" false "Medium" (Some "2000-01-01") ""))
      with (s := "2000-01-01") (d := mkDate 2000 1 1);
      [reflexivity | reflexivity | reflexivity |].
    left. simpl. lia.
  - apply (overdue_and_due_today (mkDate 2025 9 4)
             (mkTask "Demo" false "Medium" (Some "2025-09-04") ""))
      with (s := "2025-09-04") (d := mkDate 2025 9 4);
      reflexivity.
  - apply (overdue_and_due_today (mkDate 2025 9 4)
             (mkTask "Demo" false "Medium" (Some "soon") "")).
    right. right. exists "soon". split; [reflexivity|].
    intros [d H]. vm_compute in H. discriminate H.
  - apply (overdue_and_due_today (mkDate 2025 9 4)
             (mkTask "Demo" true "Medium" (Some "2000-01-01") "")).
    left. reflexivity.
Defined.

Lemma _matches_filter_returns (today : date) (f : string) (t : Task) :
  exists b, _matches_filter today f t = Ret b.
Proof.
  unfold _matches_filter.
  repeat (case_match; eauto using is_due_today_returns, is_overdue_returns).
Qed.

Lemma _matches_filter_mode (today : date) (m : filter_mode) (t : Task) :
  _matches_filter today (mode_text m) t = Ret true <-> spec_filter today m t.
Proof.
  destruct m; unfold _matches_filter; simpl.
  - tauto.
  - destruct (done t); simpl; split; congruence.
  - destruct (done t); simpl; split; congruence.
  - reflexivity.
  - reflexivity.
  - destruct (String.eqb_spec (priority t) "High") as [->|Hp];
      destruct (done t); simpl; intuition congruence.
Qed.

Lemma opt_or_empty_due (t : Task) : opt_or_empty (due t) = due_text t.
Proof.
  unfold opt_or_empty, due_text.
  destruct (due t) as [s|]; [|reflexivity]. destruct s; reflexivity.
Qed.

Lemma _matches_search_spec (search : string) (t : Task) :
  _matches_search search t = true <-> spec_search search t.
Proof.
  unfold _matches_search, spec_search, haystack.
  rewrite opt_or_empty_due.
  destruct (truthy (lower (strip search))) eqn:E; simpl.
  - rewrite contains_spec. split; [auto|].
    intros [H|H]; [|exact H].
    apply strip_blank in H. rewrite H in E. discriminate E.
  - apply (proj1 (truthy_false _)), (proj1 (lower_empty _)) in E.
    split; [left; apply strip_blank, E | reflexivity].
Qed.

(** ** The index map that [refresh_view] builds *)

Section IndexLoop.
Variables (today : date) (f q : string).

Lemma index_loop_spec (ts : list Task) (i : nat) (filtered : list nat) :
  exists ix,
    index_loop today f q i ts filtered = Ret (filtered ++ ix)%list
    /\ StronglySorted lt ix
    /\ forall j, j ∈ ix <-> i <= j /\ exists t, ts !! (j - i) = Some t /\ shows today f q t.
Proof.
  revert i filtered. induction ts as [|t ts IH]; intros i filtered; simpl.
  - exists []. rewrite app_nil_r. split; [reflexivity|]. split; [constructor|].
    intros j. split; [intros H; inversion H|].
    intros [_ [t [H _]]]. rewrite lookup_nil in H. discriminate.
  - destruct (_matches_filter_returns today f t) as [m Hm]. rewrite Hm. simpl.
    destruct (m && _matches_search q t) eqn:E.
    + destruct (IH (S i) (filtered ++ [i])%list) as (ix & Hix & Hs & Hin).
      exists (i :: ix). rewrite Hix, <- app_assoc. split; [reflexivity|].
      split.
      * constructor; [exact Hs|]. apply Forall_forall. intros j Hj.
        apply Hin in Hj. lia.
      * intros j. rewrite elem_of_cons, Hin.
        apply andb_true_iff in E as [-> E]. split.
        -- intros [->|[Hle [t' [Ht' Hsh]]]].
           ++ split; [lia|]. exists t. rewrite Nat.sub_diag. split; [reflexivity|].
              split; assumption.
           ++ split; [lia|]. exists t'. split; [|exact Hsh].
              replace (j - i) with (S (j - S i)) by lia. exact Ht'.
        -- intros [Hle [t' [Ht' Hsh]]].
           destruct (decide (j = i)) as [->|Hne]; [left; reflexivity|right].
           split; [lia|]. exists t'. split; [|exact Hsh].
           replace (j - i) with (S (j - S i)) in Ht' by lia. exact Ht'.
    + destruct (IH (S i) filtered) as (ix & Hix & Hs & Hin).
      exists ix. split; [exact Hix|]. split; [exact Hs|].
      intros j. rewrite Hin. split.
      * intros [Hle [t' [Ht' Hsh]]]. split; [lia|]. exists t'. split; [|exact Hsh].
        replace (j - i) with (S (j - S i)) by lia. exact Ht'.
      * intros [Hle [t' [Ht' Hsh]]].
        destruct (decide (j = i)) as [->|Hne].
        -- rewrite Nat.sub_diag in Ht'. simpl in Ht'. injection Ht' as <-.
           destruct Hsh as [Hf Hq]. rewrite Hf in Hm. injection Hm as <-.
           rewrite Hq in E. discriminate E.
        -- split; [lia|]. exists t'. split; [|exact Hsh].
           replace (j - i) with (S (j - S i)) in Ht' by lia. exact Ht'.
Qed.
End IndexLoop.

Lemma row_loop_returns (today : date) (ts : list Task) (ix : list nat) :
  (forall i, i ∈ ix -> is_Some (ts !! i)) ->
  exists rows, row_loop today ts ix = Ret rows /\ List.length rows = List.length ix.
Proof.
  induction ix as [|i ix IH]; intros H; simpl.
  - exists []. auto.
  - destruct (H i) as [t Ht]; [left|]. rewrite Ht.
    destruct (status_returns today t) as [st ->]. simpl.
    destruct IH as (rows & -> & Hlen); [intros j Hj; apply H; right; exact Hj|].
    simpl. eexists. split; [reflexivity|]. simpl. congruence.
Qed.

(** [refresh_view] returns; it leaves the task list alone, builds the index
    map with [index_loop] and saves. *)
Lemma refresh_view_returns (a : TodoApp) (w : world) :
  exists ix rows,
    refresh_view a w = Ret (with_view ix rows a, save_tasks (tasks a) w)
    /\ index_loop (today w) (filter_var a) (search_var a) 0 (tasks a) [] = Ret ix.
Proof.
  unfold refresh_view.
  destruct (index_loop_spec (today w) (filter_var a) (search_var a) (tasks a) 0 [])
    as (ix & Hix & _ & Hin).
  simpl in Hix. rewrite Hix. simpl.
  destruct (row_loop_returns (today w) (tasks a) ix) as (rows & -> & _).
  { intros i Hi. apply Hin in Hi as [_ [t [Ht _]]].
    rewrite Nat.sub_0_r in Ht. eauto. }
  simpl. eauto.
Qed.

(** C6. For every task list, filter mode and search text, [refresh_view]
    returns, and the index map it leaves is strictly increasing and holds
    exactly the positions of the tasks that pass both the filter mode and
    the search, as the specification words them. (A strictly increasing
    list is determined by its members.) *)
Theorem refresh_view_projection (m : filter_mode) (search : string)
    (a : TodoApp) (w : world) :
  exists a' w',
    refresh_view (with_filter (mode_text m) (with_search search a)) w = Ret (a', w')
    /\ StronglySorted lt (filtered_indices a')
    /\ forall i, i ∈ filtered_indices a' <->
                 exists t, tasks a !! i = Some t /\ visible (today w) m search t.
Proof.
  set (a1 := with_filter (mode_text m) (with_search search a)).
  destruct (refresh_view_returns a1 w) as (ix & rows & Hr & Hix).
  destruct (index_loop_spec (today w) (filter_var a1) (search_var a1) (tasks a1) 0 [])
    as (ix' & Hix' & Hs & Hin).
  rewrite Hix in Hix'. simpl in Hix'. injection Hix' as <-.
  eexists _, _. split; [exact Hr|]. simpl. split; [exact Hs|].
  intros i. rewrite Hin, Nat.sub_0_r. split.
  - intros [_ (t & Ht & Hf & Hq)]. exists t. split; [exact Ht|].
    split; [apply _matches_filter_mode, Hf | apply _matches_search_spec, Hq].
  - intros (t & Ht & Hf & Hq). split; [lia|]. exists t. split; [exact Ht|].
    split; [apply _matches_filter_mode, Hf | apply _matches_search_spec, Hq].
Qed.

(** The two scenarios of the specification for this store. *)
Example projection_All :
  (let a := mkApp [mkTask "A" false "Medium" (Some "2000-01-01") "";
                   mkTask "B" true "Medium" None ""]
                  [] "" "All" "" "Medium" "" [] None in
   match refresh_view a (mkWorld "" (mkDate 2025 9 4) None [] 0 []) with
   | Ret (a', _) => Some (filtered_indices a', tree a')
   | Raise _ => None
   end)
  = Some ([0; 1], [("A", "Medium", "2000-01-01", "Overdue");
                   ("B", "Medium", "", "Done")]).
Proof. vm_compute. reflexivity. Qed.

Example projection_Active :
  (let a := mkApp [mkTask "A" false "Medium" (Some "2000-01-01") "";
                   mkTask "B" true "Medium" None ""]
                  [] "" "Active" "" "Medium" "" [] None in
   match refresh_view a (mkWorld "" (mkDate 2025 9 4) None [] 0 []) with
   | Ret (a', _) => Some (filtered_indices a')
   | Raise _ => None
   end)
  = Some [0].
Proof. vm_compute. reflexivity. Qed.

(** ** Saving *)

Lemma save_tasks_opens (ts : list Task) (w : world) :
  opened_w (save_tasks ts w) = S (opened_w w).
Proof.
  unfold save_tasks, enter_write. destruct (default Fine (head (disk w))); reflexivity.
Qed.

Lemma save_tasks_fine (ts : list Task) (w : world) :
  default Fine (head (disk w)) = Fine ->
  file (save_tasks ts w) = Some (Doc (dumped ts))
  /\ shown (save_tasks ts w) = shown w.
Proof. unfold save_tasks, enter_write. intros ->. auto. Qed.

(** C9. [refresh_view] always returns, with the task list as it was, and
    always ends in [save_tasks] of the whole task list: the backing file
    is opened for writing once more and, when the disk does not fail,
    holds the whole list afterwards. Writing the search text or the
    filter mode calls [refresh_view], so every such write (every
    keystroke in the search entry) does the same, though no task
    changed. *)
Theorem refresh_view_always_saves (a : TodoApp) (w : world) (q f : string) :
  (exists a', refresh_view a w = Ret (a', save_tasks (tasks a) w)
              /\ tasks a' = tasks a)
  /\ (exists a', search_var_set q a w = Ret (a', save_tasks (tasks a) w)
                 /\ tasks a' = tasks a)
  /\ (exists a', filter_var_set f a w = Ret (a', save_tasks (tasks a) w)
                 /\ tasks a' = tasks a)
  /\ opened_w (save_tasks (tasks a) w) = S (opened_w w)
  /\ (default Fine (head (disk w)) = Fine ->
      file (save_tasks (tasks a) w) = Some (Doc (dumped (tasks a)))).
Proof.
  repeat split.
  - destruct (refresh_view_returns a w) as (ix & rows & Hr & _). eauto.
  - destruct (refresh_view_returns (with_search q a) w) as (ix & rows & Hr & _).
    unfold search_var_set. eauto.
  - destruct (refresh_view_returns (with_filter f a) w) as (ix & rows & Hr & _).
    unfold filter_var_set. eauto.
  - apply save_tasks_opens.
  - intros H. apply save_tasks_fine, H.
Qed.

(** A keystroke in the search entry, on a store that does not change: the
    file that was absent exists afterwards. *)
Lemma refresh_view_always_saves_witness :
  file (save_tasks [mkTask "A" false "Medium" None ""]
          (mkWorld "" (mkDate 2025 9 4) None [] 0 []))
  = Some (Doc (dumped [mkTask "A" false "Medium" None ""])).
Proof.
  apply (refresh_view_always_saves
           (mkApp [mkTask "A" false "Medium" None ""] [0] "" "All" "" "Medium" "" [] None)
           (mkWorld "" (mkDate 2025 9 4) None [] 0 []) "a" "All").
  reflexivity.
Defined.

(** ** clear_completed *)

Lemma filter_pending_sublist (ts : list Task) :
  List.filter (fun t => negb (done t)) ts `sublist_of` ts.
Proof.
  induction ts as [|t ts IH]; simpl; [constructor|].
  destruct (done t); simpl; [apply sublist_cons, IH | apply sublist_skip, IH].
Qed.

Lemma filter_pending_Forall (ts : list Task) :
  Forall (fun t => done t = false) (List.filter (fun t => negb (done t)) ts).
Proof.
  induction ts as [|t ts IH]; simpl; [constructor|].
  destruct (done t) eqn:E; simpl; [exact IH | constructor; assumption].
Qed.

Lemma filter_pending_greatest (l ts : list Task) :
  l `sublist_of` ts -> Forall (fun t => done t = false) l ->
  l `sublist_of` List.filter (fun t => negb (done t)) ts.
Proof.
  induction 1 as [|t l ts Hs IH|t l ts Hs IH]; intros Hl; simpl.
  - constructor.
  - inversion Hl as [|? ? Ht Hl']; subst. rewrite Ht. simpl.
    apply sublist_skip, IH, Hl'.
  - destruct (done t); simpl; [apply IH, Hl | apply sublist_cons, IH, Hl].
Qed.

(** C8. For every task list, [clear_completed] returns; afterwards no task
    of the store is done, the store is a sub-sequence of the old one (so
    the order is kept and nothing is added), and it is the greatest such:
    every sub-sequence of the old store without a done task is a
    sub-sequence of the new one. *)
Theorem clear_completed_keeps_pending (a : TodoApp) (w : world) :
  exists a' w',
    clear_completed a w = Ret (a', w')
    /\ Forall (fun t => done t = false) (tasks a')
    /\ tasks a' `sublist_of` tasks a
    /\ forall l, l `sublist_of` tasks a -> Forall (fun t => done t = false) l ->
                 l `sublist_of` tasks a'.
Proof.
  unfold clear_completed.
  pose proof (filter_pending_Forall (tasks a)) as Hp.
  pose proof (filter_pending_sublist (tasks a)) as Hs.
  pose proof (fun l => filter_pending_greatest l (tasks a)) as Hg.
  set (ts := List.filter (fun t => negb (done t)) (tasks a)) in *.
  destruct (negb (List.length ts =? List.length (tasks a))).
  - destruct (refresh_view_returns (with_tasks ts a) (save_tasks ts w))
      as (ix & rows & Hr & _).
    eexists _, _. split; [exact Hr|]. simpl. auto.
  - eexists _, _. split; [reflexivity|]. simpl. auto.
Qed.

Example clear_completed_example :
  (match clear_completed
           (mkApp [mkTask "A" true "Low" None ""; mkTask "B" false "High" None "";
                   mkTask "C" true "Low" None ""; mkTask "D" false "Low" None ""]
                  [] "" "All" "" "Medium" "" [] None)
           (mkWorld "" (mkDate 2025 9 4) None [] 0 []) with
   | Ret (a', w') => Some (title <$> tasks a', opened_w w')
   | Raise _ => None
   end) = Some (["B"; "D"], 2).
Proof. vm_compute. reflexivity. Qed.

(* ================================================================== *)
(** ** Load after save *)

Lemma asdict_lookups (t : Task) :
  asdict t !! "title" = Some (JStr (title t))
  /\ asdict t !! "done" = Some (JBool (done t))
  /\ asdict t !! "priority" = Some (JStr (priority t))
  /\ asdict t !! "due" = Some (match due t with Some s => JStr s | None => JNull end)
  /\ asdict t !! "created" = Some (JStr (created t)).
Proof. unfold asdict. repeat split; simplify_map_eq; reflexivity. Qed.

Lemma Task_of_item_asdict (cls : Task_class) (now : string) (t : Task) :
  Task_of_item cls now (asdict t) = Some t.
Proof.
  destruct (asdict_lookups t) as (Ht & Hd & Hp & Hu & Hc).
  unfold Task_of_item, dict_get. rewrite Ht, Hd, Hp, Hu, Hc. simpl.
  destruct t as [ti dn pr [du|] cr]; reflexivity.
Qed.

Lemma load_loop_dicts (cls : Task_class) (now : string) (ts acc : list Task) :
  load_loop cls now ((fun t => JObj (asdict t)) <$> ts) (Some acc)
  = Ret (Some (acc ++ ts)%list).
Proof.
  revert acc. induction ts as [|t ts IH]; intros acc; simpl.
  - rewrite app_nil_r. reflexivity.
  - rewrite Task_of_item_asdict. simpl. rewrite IH, <- app_assoc. reflexivity.
Qed.

(** C7. For every task list (so for every non-empty list of valid tasks),
    when the disk does not fail, [save_tasks] then [load_tasks] gives back
    the same tasks in the same order: title, done, priority and due are
    equal (and created too), and no message box is shown. *)
Theorem load_after_save (cls : Task_class) (ts : list Task) (w : world) :
  default Fine (head (disk w)) = Fine ->
  exists ts',
    load_tasks cls (save_tasks ts w) = (Some ts', save_tasks ts w)
    /\ shown (save_tasks ts w) = shown w
    /\ List.length ts' = List.length ts
    /\ forall i t, ts !! i = Some t ->
         exists t', ts' !! i = Some t'
           /\ title t' = title t /\ done t' = done t
           /\ priority t' = priority t /\ due t' = due t.
Proof.
  intros Hd. destruct (save_tasks_fine ts w Hd) as [Hf Hs].
  exists ts. unfold load_tasks. rewrite Hf. simpl.
  rewrite load_loop_dicts. simpl.
  split; [reflexivity|]. split; [exact Hs|]. split; [reflexivity|].
  intros i t Hi. exists t. auto.
Qed.

Lemma load_after_save_witness :
  exists ts',
    load_tasks (Build_Task_class "2025-09-01 08:00:00")
      (save_tasks [mkTask "A" false "High" (Some "2025-09-04") "2025-09-02 10:00:00";
                   mkTask "B" true "Low" None "2025-09-03 11:00:00"]
                  (mkWorld "2025-09-04 12:00:00" (mkDate 2025 9 4) None [] 0 []))
    = (Some ts',
       save_tasks [mkTask "A" false "High" (Some "2025-09-04") "2025-09-02 10:00:00";
                   mkTask "B" true "Low" None "2025-09-03 11:00:00"]
                  (mkWorld "2025-09-04 12:00:00" (mkDate 2025 9 4) None [] 0 []))
    /\ title <$> ts' = ["A"; "B"].
Proof.
  destruct (load_after_save (Build_Task_class "2025-09-01 08:00:00")
              [mkTask "A" false "High" (Some "2025-09-04") "2025-09-02 10:00:00";
               mkTask "B" true "Low" None "2025-09-03 11:00:00"]
              (mkWorld "2025-09-04 12:00:00" (mkDate 2025 9 4) None [] 0 []))
    as (ts' & Hl & _ & Hn & Hc); [reflexivity|].
  exists ts'. split; [exact Hl|].
  destruct (Hc 0 _ eq_refl) as (t0 & H0 & Ht0 & _).
  destruct (Hc 1 _ eq_refl) as (t1 & H1 & Ht1 & _).
  destruct ts' as [|x [|y [|z ts']]]; try discriminate Hn.
  simpl in H0, H1. injection H0 as ->. injection H1 as ->.
  simpl. rewrite Ht0, Ht1. reflexivity.
Defined.

(* ================================================================== *)
(** ** Loading records with fields missing *)

Lemma as_str_get (d : gmap string json) (key dflt : string) :
  (forall v, d !! key = Some v -> is_text v) ->
  exists s, as_str (dict_get d key (JStr dflt)) = Some s
            /\ (d !! key = None -> s = dflt)
            /\ (forall x, d !! key = Some (JStr x) -> s = x).
Proof.
  intros H. unfold dict_get. destruct (d !! key) as [v|] eqn:E; simpl.
  - destruct (H v eq_refl) as [s ->]. exists s. simpl.
    split; [reflexivity|]. split; [discriminate | congruence].
  - exists dflt. split; [reflexivity|]. split; [reflexivity | discriminate].
Qed.

Lemma Task_of_item_typed (cls : Task_class) (now : string) (d : gmap string json) :
  record_typed d ->
  exists t, Task_of_item cls now d = Some t
            /\ (d !! "title" = None -> title t = "")
            /\ (forall p, d !! "priority" = Some (JStr p) -> priority t = p).
Proof.
  intros (Ht & Hp & Hu & Hc). unfold Task_of_item.
  destruct (as_str_get d "title" "" Ht) as (t & -> & Ht0 & _).
  destruct (as_str_get d "priority" "Medium" Hp) as (p & -> & _ & Hp1).
  destruct (as_str_get d "created" now Hc) as (c & -> & _ & _).
  assert (exists u, as_str_or_None (dict_get d "due" JNull) = Some u) as [u ->].
  { unfold dict_get. destruct (d !! "due") as [v|] eqn:E; simpl; [|eauto].
    destruct (Hu v eq_refl) as [->|[s ->]]; simpl; eauto. }
  simpl. eexists. split; [reflexivity|]. simpl. auto.
Qed.

Lemma load_loop_typed (cls : Task_class) (now : string) (items : list json)
    (acc : list Task) :
  Forall stored_record items ->
  exists ts,
    load_loop cls now items (Some acc) = Ret (Some (acc ++ ts)%list)
    /\ Forall2 (fun item t => exists d, item = JObj d /\ Task_of_item cls now d = Some t)
         items ts.
Proof.
  intros H. revert acc. induction H as [|item items [d [-> Hd]] _ IH]; intros acc; simpl.
  - exists []. rewrite app_nil_r. split; [reflexivity | constructor].
  - destruct (Task_of_item_typed cls now d Hd) as (t & Ht & _). rewrite Ht. simpl.
    destruct (IH (acc ++ [t])%list) as (ts & -> & Hts).
    exists (t :: ts). rewrite <- app_assoc. split; [reflexivity|].
    constructor; [eauto | exact Hts].
Qed.

(** C10. For every backing file that holds a list of stored records,
    [load_tasks] returns one task for each record and shows no error; a
    record without a [title] field is not refused: the task at its place
    has the empty title. *)
Theorem load_missing_title_is_empty (cls : Task_class) (w : world) (items : list json) :
  file w = Some (Doc (JArr items)) ->
  Forall stored_record items ->
  exists ts,
    load_tasks cls w = (Some ts, w)
    /\ List.length ts = List.length items
    /\ forall k d, items !! k = Some (JObj d) -> d !! "title" = None ->
         exists t, ts !! k = Some t /\ title t = "".
Proof.
  intros Hf Hitems. unfold load_tasks. rewrite Hf. simpl.
  destruct (load_loop_typed cls (clock w) items [] Hitems) as (ts & -> & Hts).
  simpl. exists ts. split; [reflexivity|].
  split; [symmetry; eapply Forall2_length, Hts|].
  intros k d Hk Hnone.
  destruct (Forall2_lookup_l _ _ _ _ _ Hts Hk) as (t & Ht & d' & [= <-] & Hof).
  exists t. split; [exact Ht|].
  rewrite Forall_forall in Hitems.
  destruct (Hitems (JObj d)) as (d'' & [= <-] & Htyped).
  { eapply list_elem_of_lookup_2, Hk. }
  destruct (Task_of_item_typed cls (clock w) d Htyped) as (t' & Ht' & Htitle & _).
  rewrite Hof in Ht'. injection Ht' as <-. apply Htitle, Hnone.
Qed.

Lemma load_missing_title_is_empty_witness :
  exists ts,
    load_tasks (Build_Task_class "2025-09-01 08:00:00")
      (mkWorld "2025-09-04 12:00:00" (mkDate 2025 9 4)
         (Some (Doc (JArr [JObj (<["done" := JBool true]> ∅)]))) [] 0 [])
    = (Some ts,
       mkWorld "2025-09-04 12:00:00" (mkDate 2025 9 4)
         (Some (Doc (JArr [JObj (<["done" := JBool true]> ∅)]))) [] 0 [])
    /\ exists t, ts !! 0 = Some t /\ title t = "".
Proof.
  destruct (load_missing_title_is_empty (Build_Task_class "2025-09-01 08:00:00")
              (mkWorld "2025-09-04 12:00:00" (mkDate 2025 9 4)
                 (Some (Doc (JArr [JObj (<["done" := JBool true]> ∅)]))) [] 0 [])
              [JObj (<["done" := JBool true]> ∅)])
    as (ts & Hl & _ & Hk).
  - reflexivity.
  - constructor; [|constructor]. eexists. split; [reflexivity|].
    repeat split; intros v Hv; simplify_map_eq.
  - exists ts. split; [exact Hl|]. apply (Hk 0 _ eq_refl). simplify_map_eq. reflexivity.
Defined.

Example load_record_without_title :
  fst (load_tasks (Build_Task_class "2025-09-01 08:00:00")
         (mkWorld "2025-09-04 12:00:00" (mkDate 2025 9 4)
            (Some (Doc (JArr [JObj (<["done" := JBool true]> ∅)]))) [] 0 []))
  = Some [mkTask "" true "Medium" None "2025-09-04 12:00:00"].
Proof. vm_compute. reflexivity. Qed.

(* ================================================================== *)
(** ** Priorities *)

(** C1, as the code has it. [load_tasks] takes the priority of a stored
    record as it is, and [add_task] takes the text of the priority
    variable as it is (Medium when blank): neither looks whether it is
    Low, Medium or High, as [edit_selected] does. So a record with the
    priority Urgent loads, with no error shown, into a store that holds a
    task with that priority. *)
Theorem priority_is_not_checked (cls : Task_class) (w : world) (p : string) :
  load_tasks cls
    (with_file (Some (Doc (JArr [JObj (<["title" := JStr "A"]>
                                       (<["priority" := JStr p]> ∅))]))) w)
  = (Some [mkTask "A" false p None (clock w)],
     with_file (Some (Doc (JArr [JObj (<["title" := JStr "A"]>
                                      (<["priority" := JStr p]> ∅))]))) w)
  /\ (exists a' w',
        add_task cls (entries "A" p "") w = Ret (a', w')
        /\ tasks a' = [mkTask "A" false (str_or (strip p) "Medium") None
                         (created_default cls)])
  /\ ~ listed_priority "Urgent"
  /\ str_or (strip "Urgent") "Medium" = "Urgent".
Proof.
  split; [|split; [|split]].
  - unfold load_tasks. simpl. unfold Task_of_item, dict_get.
    simplify_map_eq. reflexivity.
  - unfold add_task. simpl.
    destruct (refresh_view_returns
                (with_entries "" "Medium" ""
                   (with_tasks [Task_init cls "A" None (Some (str_or (strip p) "Medium"))
                                  (Some None) None] (entries "A" p "")))
                (save_tasks [Task_init cls "A" None (Some (str_or (strip p) "Medium"))
                               (Some None) None] w))
      as (ix & rows & Hr & _).
    eexists _, _. split; [exact Hr | reflexivity].
  - unfold listed_priority. rewrite !elem_of_cons, elem_of_nil.
    intros [H|[H|[H|[]]]]; discriminate H.
  - reflexivity.
Qed.

(* ================================================================== *)
(** ** What a failing disk leaves *)

(** C2 as stated fails: the file is opened with ["w"], which empties it
    before anything is written. Here the file holds the empty list, one
    task is saved and the writing fails: the file then holds neither what
    it held nor the list that was saved. *)
Lemma save_tasks_not_atomic :
  file (save_tasks [mkTask "A" false "Medium" None "2025-09-04 12:00:00"]
          (mkWorld "2025-09-04 12:00:00" (mkDate 2025 9 4)
             (Some (Doc (JArr []))) [WriteFails] 0 []))
  <> Some (Doc (JArr []))
  /\ file (save_tasks [mkTask "A" false "Medium" None "2025-09-04 12:00:00"]
             (mkWorld "2025-09-04 12:00:00" (mkDate 2025 9 4)
                (Some (Doc (JArr []))) [WriteFails] 0 []))
     <> Some (Doc (dumped [mkTask "A" false "Medium" None "2025-09-04 12:00:00"]))
  /\ shown (save_tasks [mkTask "A" false "Medium" None "2025-09-04 12:00:00"]
              (mkWorld "2025-09-04 12:00:00" (mkDate 2025 9 4)
                 (Some (Doc (JArr []))) [WriteFails] 0 []))
     = [showerror "Save Error"].
Proof. simpl. repeat split; discriminate. Qed.

(** C2, amended. [save_tasks] writes the file in place and returns in
    every case. When the disk does not fail, the file then holds the whole
    list and nothing is shown. When opening fails, the file holds what it
    held; when the writing fails, the file is cut short; in both cases a
    save error is shown. The task list of the program is not touched:
    [refresh_view], which ends in this save, returns with the task list it
    had, whatever the disk does. *)
Theorem save_tasks_in_place (a : TodoApp) (w : world) :
  (default Fine (head (disk w)) = Fine ->
     file (save_tasks (tasks a) w) = Some (Doc (dumped (tasks a)))
     /\ shown (save_tasks (tasks a) w) = shown w)
  /\ (default Fine (head (disk w)) = OpenFails ->
     file (save_tasks (tasks a) w) = file w
     /\ shown (save_tasks (tasks a) w) = (shown w ++ [showerror "Save Error"])%list)
  /\ (default Fine (head (disk w)) = WriteFails ->
     file (save_tasks (tasks a) w) = Some Cut
     /\ shown (save_tasks (tasks a) w) = (shown w ++ [showerror "Save Error"])%list)
  /\ exists a', refresh_view a w = Ret (a', save_tasks (tasks a) w)
                /\ tasks a' = tasks a.
Proof.
  split; [|split; [|split]].
  - apply save_tasks_fine.
  - unfold save_tasks, enter_write. intros ->. auto.
  - unfold save_tasks, enter_write. intros ->. auto.
  - destruct (refresh_view_returns a w) as (ix & rows & Hr & _). eauto.
Qed.

Lemma save_tasks_in_place_witness :
  (file (save_tasks [mkTask "A" false "Medium" None ""]
           (mkWorld "" (mkDate 2025 9 4) None [Fine] 0 []))
   = Some (Doc (dumped [mkTask "A" false "Medium" None ""])))
  /\ (file (save_tasks [mkTask "A" false "Medium" None ""]
              (mkWorld "" (mkDate 2025 9 4) (Some (Doc (JArr []))) [OpenFails] 0 []))
      = Some (Doc (JArr [])))
  /\ (shown (save_tasks [mkTask "A" false "Medium" None ""]
               (mkWorld "" (mkDate 2025 9 4) (Some (Doc (JArr []))) [WriteFails] 0 []))
      = [showerror "Save Error"]).
Proof.
  split; [|split].
  - apply (save_tasks_in_place
             (mkApp [mkTask "A" false "Medium" None ""] [] "" "All" "" "Medium" "" [] None)
             (mkWorld "" (mkDate 2025 9 4) None [Fine] 0 [])).
    reflexivity.
  - apply (save_tasks_in_place
             (mkApp [mkTask "A" false "Medium" None ""] [] "" "All" "" "Medium" "" [] None)
             (mkWorld "" (mkDate 2025 9 4) (Some (Doc (JArr []))) [OpenFails] 0 [])).
    reflexivity.
  - apply (save_tasks_in_place
             (mkApp [mkTask "A" false "Medium" None ""] [] "" "All" "" "Medium" "" [] None)
             (mkWorld "" (mkDate 2025 9 4) (Some (Doc (JArr []))) [WriteFails] 0 [])).
    reflexivity.
Defined.

(* ================================================================== *)
(** ** Editing with a blank title *)

(** C3 as stated fails. Row 0 is selected; the user blanks the title,
    answers [high] for the priority and leaves the due date empty. No
    warning is shown and the task is changed: it keeps its title and gets
    the priority High. *)
Lemma edit_blank_title_commits :
  strip "   " = ""
  /\ match edit_selected (Some "   ") (Some "high") (Some "")
             (mkApp [mkTask "A" false "Medium" None "2025-09-02 10:00:00"] [0]
                    "" "All" "" "Medium" "" [("A", "Medium", "", "Pending")] (Some 0%Z))
             (mkWorld "2025-09-04 12:00:00" (mkDate 2025 9 4) None [] 0 []) with
     | Ret (a', w') =>
         tasks a' = [mkTask "A" false "High" None "2025-09-02 10:00:00"]
         /\ tasks a' <> [mkTask "A" false "Medium" None "2025-09-02 10:00:00"]
         /\ shown w' = []
     | Raise _ => False
     end.
Proof.
  split; [reflexivity|]. vm_compute.
  split; [reflexivity|]. split; [intros H; discriminate H | reflexivity].
Qed.

Lemma _valid_date_parseable (s : string) :
  (parseable s -> _valid_date s = Ret true)
  /\ (~ parseable s -> _valid_date s = Ret false).
Proof.
  unfold _valid_date, try_except, res_bind.
  destruct (strptime_date s) as [d|e] eqn:E.
  - split; [reflexivity|]. intros H. exfalso. apply H. exists d. exact E.
  - pose proof (strptime_date_raises _ _ E) as ->. simpl.
    split; [intros [d H]; congruence | reflexivity].
Qed.

Lemma listed_priority_decide (p : string) :
  (listed_priority p -> bool_decide (p ∈ ["Low"; "Medium"; "High"]) = true)
  /\ (~ listed_priority p -> bool_decide (p ∈ ["Low"; "Medium"; "High"]) = false).
Proof.
  unfold listed_priority. split; intros H.
  - apply bool_decide_eq_true_2, H.
  - apply bool_decide_eq_false_2, H.
Qed.

(** C3, amended. For a selected row that resolves to a task of the store
    and a title answer that is empty after trimming, [edit_selected] does
    not refuse the title: it takes the title the task has. With a
    priority that capitalizes to Low, Medium or High and a due answer that
    is blank or a date, the edit is committed: priority and due are set,
    title, done and created stay. With another priority, or with a due
    answer that is neither blank nor a date, a warning is shown and
    nothing changes. *)
Theorem edit_blank_title_keeps_title (ans_title ans_prio ans_due : string)
    (a : TodoApp) (w : world) (idx : nat) (t : Task) :
  _selected_index a = Some idx ->
  tasks a !! idx = Some t ->
  strip ans_title = "" ->
  (listed_priority (capitalize ans_prio) ->
   strip ans_due = "" \/ parseable (strip ans_due) ->
   exists a' w',
     edit_selected (Some ans_title) (Some ans_prio) (Some ans_due) a w = Ret (a', w')
     /\ tasks a' = <[idx := mkTask (title t) (done t) (capitalize ans_prio)
                             (str_or_None (strip ans_due)) (created t)]> (tasks a))
  /\ (~ listed_priority (capitalize ans_prio) ->
      edit_selected (Some ans_title) (Some ans_prio) (Some ans_due) a w
      = Ret (a, say (showwarning "Invalid Priority") w))
  /\ (listed_priority (capitalize ans_prio) ->
      strip ans_due <> "" -> ~ parseable (strip ans_due) ->
      edit_selected (Some ans_title) (Some ans_prio) (Some ans_due) a w
      = Ret (a, say (showwarning "Invalid Date") w)).
Proof.
  intros Hsel Ht Hblank. unfold edit_selected. rewrite Hsel, Ht, Hblank.
  change (str_or "" (title t)) with (title t).
  destruct (listed_priority_decide (capitalize ans_prio)) as [Hin Hout].
  split; [|split].
  - intros Hp Hd. rewrite (Hin Hp). simpl.
    assert (match str_or_None (strip ans_due) with
            | Some s => let* ok := _valid_date s in Ret (truthy s && negb ok)
            | None => Ret false
            end = Ret false) as ->.
    { unfold str_or_None. destruct Hd as [->|Hd]; [reflexivity|].
      rewrite (parseable_nonempty _ Hd).
      rewrite (proj1 (_valid_date_parseable _) Hd). simpl.
      rewrite andb_false_r. reflexivity. }
    simpl.
    match goal with
    | |- context [refresh_view ?x ?y] =>
        destruct (refresh_view_returns x y) as (ix & rows & -> & _)
    end.
    eexists _, _. split; reflexivity.
  - intros Hp. rewrite (Hout Hp). reflexivity.
  - intros Hp Hne Hd. rewrite (Hin Hp). simpl.
    unfold str_or_None. rewrite (proj2 (truthy_true _) Hne).
    rewrite (proj2 (_valid_date_parseable _) Hd). simpl.
    rewrite (proj2 (truthy_true _) Hne). reflexivity.
Qed.

Lemma edit_blank_title_keeps_title_witness :
  exists a' w',
    edit_selected (Some "   ") (Some "high") (Some "2025-10-01")
      (mkApp [mkTask "A" false "Medium" None "2025-09-02 10:00:00"] [0]
             "" "All" "" "Medium" "" [("A", "Medium", "", "Pending")] (Some 0%Z))
      (mkWorld "2025-09-04 12:00:00" (mkDate 2025 9 4) None [] 0 [])
    = Ret (a', w')
    /\ tasks a' = [mkTask "A" false "High" (Some "2025-10-01") "2025-09-02 10:00:00"].
Proof.
  apply (edit_blank_title_keeps_title "   " "high" "2025-10-01"
           (mkApp [mkTask "A" false "Medium" None "2025-09-02 10:00:00"] [0]
                  "" "All" "" "Medium" "" [("A", "Medium", "", "Pending")] (Some 0%Z))
           (mkWorld "2025-09-04 12:00:00" (mkDate 2025 9 4) None [] 0 [])
           0 (mkTask "A" false "Medium" None "2025-09-02 10:00:00")).
  - reflexivity.
  - reflexivity.
  - reflexivity.
  - unfold listed_priority. vm_compute. right. right. left.
  - right. exists (mkDate 2025 10 1). reflexivity.
Defined.

(* ================================================================== *)
(** ** The time of creation *)

(** C4, as the code has it. The module is imported on 1 September at
    08:00; task A is added on 2 September at 10:00 and task B on
    3 September at 11:00. Both tasks carry the time of the import as
    their time of creation, not the times at which they were added. *)
Theorem created_is_the_import_time :
  match add_task (Build_Task_class "2025-09-01 08:00:00")
          (entries "A" "Medium" "")
          (mkWorld "2025-09-02 10:00:00" (mkDate 2025 9 2) None [] 0 []) with
  | Ret (a1, w1) =>
      match add_task (Build_Task_class "2025-09-01 08:00:00")
              (with_entries "B" "Medium" "" a1)
              (with_clock "2025-09-03 11:00:00" (mkDate 2025 9 3) w1) with
      | Ret (a2, _) =>
          tasks a2 = [mkTask "A" false "Medium" None "2025-09-01 08:00:00";
                      mkTask "B" false "Medium" None "2025-09-01 08:00:00"]
      | Raise _ => False
      end
  | Raise _ => False
  end.
Proof. vm_compute. reflexivity. Qed.

(* ================================================================== *)
(** * More properties of the code *)

(** ** The status of a task *)

Lemma date_lt_trans (a b c : date) : date_lt a b -> date_lt b c -> date_lt a c.
Proof. unfold date_lt. lia. Qed.

Lemma date_lt_irrefl (a : date) : ~ date_lt a a.
Proof. unfold date_lt. lia. Qed.

Lemma date_ltb_not_eqb (a b : date) : date_ltb a b = true -> date_eqb a b = false.
Proof.
  intros H. apply date_ltb_lt in H.
  destruct (date_eqb a b) eqn:E; [|reflexivity].
  apply date_eqb_eq in E. subst b. exfalso. exact (date_lt_irrefl a H).
Qed.

Lemma overdue_excludes_due_today (today : date) (t : Task) :
  is_overdue today t = Ret true -> is_due_today today t = Ret false.
Proof.
  rewrite is_overdue_unfold, is_due_today_unfold.
  destruct (done t); [auto|]. destruct (due t) as [s|]; [|auto].
  destruct (truthy s); [|auto]. destruct (strptime_date s) as [d|e]; [|auto].
  intros [= H]. rewrite (date_ltb_not_eqb _ _ H). reflexivity.
Qed.

Lemma done_not_overdue (today : date) (t : Task) :
  done t = true ->
  is_overdue today t = Ret false /\ is_due_today today t = Ret false.
Proof.
  intros H. rewrite is_overdue_unfold, is_due_today_unfold, H. auto.
Qed.

(** X1. The status column shows exactly one of the four labels, and each
    label tells one thing: Done for a task that is done, Overdue for one
    that [is_overdue], Due Today for one that [is_due_today], Pending for
    the others. In particular no task is both overdue and due today. *)
Theorem status_label (today : date) (t : Task) :
  exists st,
    status today t = Ret st
    /\ (st = "Done" <-> done t = true)
    /\ (st = "Overdue" <-> is_overdue today t = Ret true)
    /\ (st = "Due Today" <-> is_due_today today t = Ret true)
    /\ (st = "Pending" <->
        done t = false /\ is_overdue today t = Ret false
        /\ is_due_today today t = Ret false).
Proof.
  unfold status. destruct (done t) eqn:Hd.
  - destruct (done_not_overdue today t Hd) as [Ho Hu]. rewrite Ho, Hu.
    exists "Done". repeat split; intros; try discriminate; auto.
    destruct H as [H _]. discriminate H.
  - destruct (is_overdue_returns today t) as [o Ho]. rewrite Ho. simpl.
    destruct o.
    + rewrite (overdue_excludes_due_today today t Ho).
      exists "Overdue". repeat split; intros; try discriminate; auto.
      destruct H as (_ & H & _). discriminate H.
    + destruct (is_due_today_returns today t) as [u Hu]. rewrite Hu. simpl.
      destruct u.
      * exists "Due Today". repeat split; intros; try discriminate; auto.
        destruct H as (_ & _ & H). discriminate H.
      * exists "Pending". repeat split; intros; try discriminate; auto.
Qed.

(** X2. Time only makes a task later: a task that is overdue on some day
    is overdue on every later day, and a task that is due today is
    overdue, and no longer due today, on every later day. *)
Theorem overdue_stays_overdue (today later : date) (t : Task) :
  date_lt today later ->
  (is_overdue today t = Ret true -> is_overdue later t = Ret true)
  /\ (is_due_today today t = Ret true ->
      is_overdue later t = Ret true /\ is_due_today later t = Ret false).
Proof.
  intros Hl. rewrite !is_overdue_unfold, !is_due_today_unfold.
  destruct (done t); [split; intros H; discriminate H|].
  destruct (due t) as [s|]; [|split; intros H; discriminate H].
  destruct (truthy s); [|split; intros H; discriminate H].
  destruct (strptime_date s) as [d|e]; [|split; intros H; discriminate H].
  split.
  - intros [= H]. apply date_ltb_lt in H.
    rewrite (proj2 (date_ltb_lt d later)); [reflexivity|].
    eapply date_lt_trans; eassumption.
  - intros [= H]. apply date_eqb_eq in H. subst d.
    pose proof (proj2 (date_ltb_lt today later) Hl) as Hb.
    rewrite Hb, (date_ltb_not_eqb _ _ Hb). auto.
Qed.

Lemma overdue_stays_overdue_witness :
  is_overdue (mkDate 2025 9 5) (mkTask "A" false "Low" (Some "2025-09-04") "")
  = Ret true.
Proof.
  apply (overdue_stays_overdue (mkDate 2025 9 4) (mkDate 2025 9 5)
           (mkTask "A" false "Low" (Some "2025-09-04") "")).
  - right. simpl. split; [reflexivity|]. right. split; [reflexivity | lia].
  - reflexivity.
Defined.

(** ** The view after [refresh_view] *)

Lemma refresh_view_shape (a : TodoApp) (w : world) :
  exists ix rows,
    refresh_view a w = Ret (with_view ix rows a, save_tasks (tasks a) w)
    /\ StronglySorted lt ix
    /\ (forall j, j ∈ ix <->
                  shown_at (today w) (filter_var a) (search_var a) (tasks a) j)
    /\ row_loop (today w) (tasks a) ix = Ret rows.
Proof.
  unfold refresh_view.
  destruct (index_loop_spec (today w) (filter_var a) (search_var a) (tasks a) 0 [])
    as (ix & Hix & Hs & Hin).
  simpl in Hix. rewrite Hix. simpl.
  destruct (row_loop_returns (today w) (tasks a) ix) as (rows & Hrows & _).
  { intros i Hi. apply Hin in Hi as [_ [t [Ht _]]].
    rewrite Nat.sub_0_r in Ht. eauto. }
  rewrite Hrows. simpl. exists ix, rows.
  split; [reflexivity|]. split; [exact Hs|]. split; [|exact Hrows].
  intros j. rewrite Hin, Nat.sub_0_r. unfold shown_at. split.
  - intros [_ H]. exact H.
  - intros H. split; [lia | exact H].
Qed.

Lemma shown_at_lt (today : date) (f q : string) (ts : list Task) (j : nat) :
  shown_at today f q ts j -> j < List.length ts.
Proof. intros (t & Ht & _). eapply lookup_lt_Some, Ht. Qed.

Lemma row_loop_rows (today : date) (ts : list Task) (ix : list nat) (rows : list row) :
  row_loop today ts ix = Ret rows ->
  Forall2 (fun i r => exists t st, ts !! i = Some t /\ status today t = Ret st
                        /\ r = (title t, priority t, due_text t, st)) ix rows.
Proof.
  revert rows. induction ix as [|i ix IH]; intros rows; simpl.
  - intros [= <-]. constructor.
  - destruct (ts !! i) as [t|] eqn:Ht; [|discriminate].
    destruct (status today t) as [st|e] eqn:Hst; [|discriminate]. simpl.
    destruct (row_loop today ts ix) as [rows'|e]; [|discriminate]. simpl.
    intros [= <-]. constructor; [|apply IH; reflexivity].
    exists t, st. rewrite opt_or_empty_due. auto.
Qed.

(** X3. After [refresh_view] nothing is selected and the tree has one row
    for each entry of the index map; a click on row [k] resolves, through
    [_selected_index], to the position of the very task whose title,
    priority, due date and status the row displays. *)
Theorem row_resolves_to_its_task (a : TodoApp) (w : world) :
  exists a' w',
    refresh_view a w = Ret (a', w')
    /\ selection a' = None
    /\ List.length (tree a') = List.length (filtered_indices a')
    /\ forall (k : nat) (r : row), tree a' !! k = Some r ->
         exists i t st,
           _selected_index (with_selection (Some (Z.of_nat k)) a') = Some i
           /\ tasks a' !! i = Some t
           /\ status (today w) t = Ret st
           /\ r = (title t, priority t, due_text t, st).
Proof.
  destruct (refresh_view_shape a w) as (ix & rows & Hr & _ & _ & Hrows).
  apply row_loop_rows in Hrows.
  eexists _, _. split; [exact Hr|]. simpl. split; [reflexivity|].
  split; [symmetry; eapply Forall2_length, Hrows|].
  intros k r Hk.
  destruct (Forall2_lookup_r _ _ _ _ _ Hrows Hk) as (i & Hi & t & st & Ht & Hst & ->).
  exists i, t, st. repeat split; try assumption.
  unfold _selected_index. simpl.
  pose proof (lookup_lt_Some _ _ _ Hi) as Hlt.
  destruct (Z.ltb_spec (Z.of_nat k) 0); [lia|].
  destruct (Z.geb_spec (Z.of_nat k) (Z.of_nat (List.length ix))); [lia|].
  simpl. rewrite Nat2Z.id. exact Hi.
Qed.

Lemma index_loop_all (today : date) (f q : string) (ts : list Task) (i : nat)
    (filtered : list nat) :
  (forall t, t ∈ ts -> _matches_filter today f t = Ret true /\ _matches_search q t = true) ->
  index_loop today f q i ts filtered = Ret (filtered ++ seq i (List.length ts))%list.
Proof.
  revert i filtered. induction ts as [|t ts IH]; intros i filtered H; simpl.
  - rewrite app_nil_r. reflexivity.
  - destruct (H t) as [-> ->]; [left|]. simpl.
    rewrite IH by (intros t' Ht'; apply H; right; exact Ht').
    rewrite <- app_assoc. reflexivity.
Qed.

Lemma _matches_filter_other (today : date) (f : string) (t : Task) :
  f ∉ ["Active"; "Completed"; "Due Today"; "Overdue"; "High Priority"] ->
  _matches_filter today f t = Ret true.
Proof.
  rewrite !not_elem_of_cons. intros (H1 & H2 & H3 & H4 & H5 & _).
  unfold _matches_filter.
  destruct (String.eqb_spec f "All"); [reflexivity|].
  rewrite (proj2 (String.eqb_neq _ _) H1), (proj2 (String.eqb_neq _ _) H2),
    (proj2 (String.eqb_neq _ _) H3), (proj2 (String.eqb_neq _ _) H4),
    (proj2 (String.eqb_neq _ _) H5).
  reflexivity.
Qed.

(** X4. With the filter All, or with any filter text that is none of the
    five restricting modes, and with an empty or blank search text,
    [refresh_view] shows every task: the index map is 0, 1, ..., n-1 for a
    store of n tasks. *)
Theorem nothing_hidden_without_filter (f q : string) (a : TodoApp) (w : world) :
  f ∉ ["Active"; "Completed"; "Due Today"; "Overdue"; "High Priority"] ->
  blank q ->
  exists a' w',
    refresh_view (with_filter f (with_search q a)) w = Ret (a', w')
    /\ filtered_indices a' = seq 0 (List.length (tasks a)).
Proof.
  intros Hf Hq.
  destruct (refresh_view_returns (with_filter f (with_search q a)) w)
    as (ix & rows & Hr & Hix).
  simpl in Hix. rewrite index_loop_all in Hix.
  - injection Hix as <-. eexists _, _. split; [exact Hr | reflexivity].
  - intros t _. split; [apply _matches_filter_other, Hf|].
    apply _matches_search_spec. left. exact Hq.
Qed.

Lemma nothing_hidden_without_filter_witness :
  exists a' w',
    refresh_view
      (with_filter "All"
         (with_search "  "
            (mkApp [mkTask "A" true "Low" None ""; mkTask "B" false "High" None ""]
                   [] "x" "Active" "" "Medium" "" [] None)))
      (mkWorld "" (mkDate 2025 9 4) None [] 0 []) = Ret (a', w')
    /\ filtered_indices a' = [0; 1].
Proof.
  apply (nothing_hidden_without_filter "All" "  "
           (mkApp [mkTask "A" true "Low" None ""; mkTask "B" false "High" None ""]
                  [] "x" "Active" "" "Medium" "" [] None)
           (mkWorld "" (mkDate 2025 9 4) None [] 0 [])).
  - rewrite !not_elem_of_cons. repeat split; try discriminate. apply not_elem_of_nil.
  - intros c [<-|[<-|[]]]; reflexivity.
Defined.

(** ** What the handlers do to the store *)

Lemma save_tasks_frame (ts : list Task) (w : world) :
  today (save_tasks ts w) = today w /\ clock (save_tasks ts w) = clock w.
Proof.
  unfold save_tasks, enter_write. destruct (default Fine (head (disk w))); auto.
Qed.

Lemma say_frame (d : dialog) (w : world) :
  file (say d w) = file w /\ opened_w (say d w) = opened_w w
  /\ disk (say d w) = disk w.
Proof. auto. Qed.

(** A handler that has changed the store to [ts] ends in [refresh_view]
    after a first [save_tasks]. *)
Lemma commit_returns (a0 : TodoApp) (ts : list Task) (w : world) :
  exists ix rows,
    refresh_view (with_tasks ts a0) (save_tasks ts w)
    = Ret (with_view ix rows (with_tasks ts a0), save_tasks ts (save_tasks ts w))
    /\ StronglySorted lt ix
    /\ (forall j, j ∈ ix <-> shown_at (today w) (filter_var a0) (search_var a0) ts j)
    /\ view_ok (with_view ix rows (with_tasks ts a0)).
Proof.
  destruct (refresh_view_shape (with_tasks ts a0) (save_tasks ts w))
    as (ix & rows & Hr & Hs & Hin & _).
  simpl in *. rewrite (proj1 (save_tasks_frame ts w)) in Hin.
  exists ix, rows. split; [exact Hr|]. split; [exact Hs|]. split; [exact Hin|].
  intros i Hi. simpl in *. eapply shown_at_lt, Hin, Hi.
Qed.

Lemma _valid_date_cases (s : string) :
  (parseable s /\ _valid_date s = Ret true)
  \/ (~ parseable s /\ _valid_date s = Ret false).
Proof.
  destruct (_valid_date_parseable s) as [H1 H2].
  destruct (strptime_date s) as [d|e] eqn:E.
  - left. assert (parseable s) by (exists d; exact E). auto.
  - right. assert (~ parseable s) by (intros [d H]; congruence). auto.
Qed.

(** The test [if due and not self._valid_date(due)] on the trimmed entry. *)
Lemma due_entry_cases (x : string) :
  (str_or_None (strip x) = None /\ strip x = ""
   /\ match str_or_None (strip x) with
      | Some s => let* ok := _valid_date s in Ret (truthy s && negb ok)
      | None => Ret false
      end = Ret false)
  \/ (str_or_None (strip x) = Some (strip x) /\ parseable (strip x)
      /\ match str_or_None (strip x) with
         | Some s => let* ok := _valid_date s in Ret (truthy s && negb ok)
         | None => Ret false
         end = Ret false)
  \/ (strip x <> "" /\ ~ parseable (strip x)
      /\ match str_or_None (strip x) with
         | Some s => let* ok := _valid_date s in Ret (truthy s && negb ok)
         | None => Ret false
         end = Ret true).
Proof.
  unfold str_or_None. destruct (truthy (strip x)) eqn:E.
  - destruct (_valid_date_cases (strip x)) as [[Hp Hv]|[Hp Hv]]; rewrite Hv; simpl.
    + right. left. rewrite andb_false_r. auto.
    + right. right. rewrite E. apply truthy_true in E. auto.
  - left. apply truthy_false in E. auto.
Qed.

Lemma add_task_blank_title (cls : Task_class) (a : TodoApp) (w : world) :
  strip (title_var a) = "" ->
  add_task cls a w = Ret (a, say (showwarning "Missing Title") w).
Proof. intros H. unfold add_task. rewrite H. reflexivity. Qed.

Lemma add_task_bad_date (cls : Task_class) (a : TodoApp) (w : world) :
  strip (title_var a) <> "" ->
  strip (due_var a) <> "" -> ~ parseable (strip (due_var a)) ->
  add_task cls a w = Ret (a, say (showwarning "Invalid Date") w).
Proof.
  intros Ht Hne Hp. unfold add_task. rewrite (proj2 (truthy_true _) Ht). simpl.
  destruct (due_entry_cases (due_var a)) as [(_ & H & _)|[(_ & H & _)|(_ & _ & ->)]];
    [contradiction | contradiction | reflexivity].
Qed.

Lemma add_task_accepts (cls : Task_class) (a : TodoApp) (w : world) :
  strip (title_var a) <> "" ->
  strip (due_var a) = "" \/ parseable (strip (due_var a)) ->
  exists ix rows,
    add_task cls a w
    = Ret (with_view ix rows
             (with_entries "" "Medium" ""
                (with_tasks
                   (tasks a ++ [mkTask (strip (title_var a)) false
                                  (str_or (strip (priority_var a)) "Medium")
                                  (str_or_None (strip (due_var a)))
                                  (created_default cls)])%list a)),
           save_tasks
             (tasks a ++ [mkTask (strip (title_var a)) false
                            (str_or (strip (priority_var a)) "Medium")
                            (str_or_None (strip (due_var a)))
                            (created_default cls)])%list
             (save_tasks
                (tasks a ++ [mkTask (strip (title_var a)) false
                               (str_or (strip (priority_var a)) "Medium")
                               (str_or_None (strip (due_var a)))
                               (created_default cls)])%list w))
    /\ view_ok (with_view ix rows
                  (with_entries "" "Medium" ""
                     (with_tasks
                        (tasks a ++ [mkTask (strip (title_var a)) false
                                       (str_or (strip (priority_var a)) "Medium")
                                       (str_or_None (strip (due_var a)))
                                       (created_default cls)])%list a))).
Proof.
  intros Ht Hd. unfold add_task. rewrite (proj2 (truthy_true _) Ht). simpl.
  destruct (due_entry_cases (due_var a)) as [(_ & _ & ->)|[(_ & _ & ->)|(Hne & Hp & _)]].
  3: { destruct Hd; contradiction. }
  all: simpl; unfold Task_init; simpl;
    match goal with
    | |- context [refresh_view (with_entries ?t ?p ?d (with_tasks ?ts ?a0)) _] =>
        destruct (commit_returns (with_entries t p d a0) ts w) as (ix & rows & Hr & _ & _ & Hv)
    end;
    exists ix, rows; split; [exact Hr | exact Hv].
Qed.

(** X5. [add_task] has three outcomes. A title entry that is empty after
    trimming gives the warning Missing Title; a due entry that is neither
    blank nor a date gives the warning Invalid Date; in both cases the
    application is exactly as before and the backing file is not opened.
    Otherwise one task is appended at the end of the store, with the
    trimmed title, not done, the trimmed priority (Medium when blank) and
    the trimmed due text (None when blank); the three entries are reset
    and the file has been opened for writing twice. *)
Theorem add_task_outcomes (cls : Task_class) (a : TodoApp) (w : world) :
  (strip (title_var a) = "" ->
   add_task cls a w = Ret (a, say (showwarning "Missing Title") w))
  /\ (strip (title_var a) <> "" ->
      strip (due_var a) <> "" -> ~ parseable (strip (due_var a)) ->
      add_task cls a w = Ret (a, say (showwarning "Invalid Date") w))
  /\ (strip (title_var a) <> "" ->
      strip (due_var a) = "" \/ parseable (strip (due_var a)) ->
      exists a' w' t,
        add_task cls a w = Ret (a', w')
        /\ tasks a' = (tasks a ++ [t])%list
        /\ title t = strip (title_var a) /\ done t = false
        /\ priority t = str_or (strip (priority_var a)) "Medium"
        /\ due t = str_or_None (strip (due_var a))
        /\ title_var a' = "" /\ priority_var a' = "Medium" /\ due_var a' = ""
        /\ opened_w w' = S (S (opened_w w))).
Proof.
  split; [apply add_task_blank_title|]. split; [apply add_task_bad_date|].
  intros Ht Hd. destruct (add_task_accepts cls a w Ht Hd) as (ix & rows & Hr & _).
  eexists _, _, _. split; [exact Hr|]. simpl.
  rewrite !save_tasks_opens. repeat split; reflexivity.
Qed.

Lemma add_task_outcomes_witness :
  add_task (Build_Task_class "2025-09-01 08:00:00") (entries "   " "High" "")
    (mkWorld "2025-09-04 12:00:00" (mkDate 2025 9 4) None [] 0 [])
  = Ret (entries "   " "High" "",
         say (showwarning "Missing Title")
           (mkWorld "2025-09-04 12:00:00" (mkDate 2025 9 4) None [] 0 []))
  /\ add_task (Build_Task_class "2025-09-01 08:00:00") (entries "A" "High" "2025-02-30")
       (mkWorld "2025-09-04 12:00:00" (mkDate 2025 9 4) None [] 0 [])
     = Ret (entries "A" "High" "2025-02-30",
            say (showwarning "Invalid Date")
              (mkWorld "2025-09-04 12:00:00" (mkDate 2025 9 4) None [] 0 []))
  /\ exists a' w' t,
       add_task (Build_Task_class "2025-09-01 08:00:00") (entries " A " "High" "2025-02-28")
         (mkWorld "2025-09-04 12:00:00" (mkDate 2025 9 4) None [] 0 [])
       = Ret (a', w')
       /\ tasks a' = ([] ++ [t])%list /\ title t = "A" /\ due t = Some "2025-02-28".
Proof.
  split; [|split].
  - apply (add_task_outcomes (Build_Task_class "2025-09-01 08:00:00")
             (entries "   " "High" "")
             (mkWorld "2025-09-04 12:00:00" (mkDate 2025 9 4) None [] 0 [])).
    reflexivity.
  - apply (add_task_outcomes (Build_Task_class "2025-09-01 08:00:00")
             (entries "A" "High" "2025-02-30")
             (mkWorld "2025-09-04 12:00:00" (mkDate 2025 9 4) None [] 0 [])).
    + discriminate.
    + discriminate.
    + intros [d H]. vm_compute in H. discriminate H.
  - destruct (proj2 (proj2 (add_task_outcomes (Build_Task_class "2025-09-01 08:00:00")
                              (entries " A " "High" "2025-02-28")
                              (mkWorld "2025-09-04 12:00:00" (mkDate 2025 9 4) None [] 0 []))))
      as (a' & w' & t & Hr & Hts & Ht & _ & _ & Hd & _).
    + discriminate.
    + right. exists (mkDate 2025 2 28). reflexivity.
    + exists a', w', t. auto.
Defined.

(** *** edit_selected *)

Lemma _selected_index_elem (a : TodoApp) (idx : nat) :
  _selected_index a = Some idx -> idx ∈ filtered_indices a.
Proof.
  unfold _selected_index. destruct (selection a) as [r|]; [|discriminate].
  case_match; [discriminate|]. intros Hl. eapply list_elem_of_lookup_2, Hl.
Qed.

Lemma _selected_index_task (a : TodoApp) (idx : nat) :
  view_ok a -> _selected_index a = Some idx -> exists t, tasks a !! idx = Some t.
Proof.
  intros Hv H. apply _selected_index_elem, Hv in H.
  apply lookup_lt_is_Some_2 in H. exact H.
Qed.

(** The outcomes of [edit_selected] for a selection that resolves to the
    task [t] at [idx]: nothing happens (a dialog was cancelled), or a
    warning and nothing else, or the task at [idx] is replaced. *)
Lemma edit_selected_outcome (x p d : option string) (a : TodoApp) (w : world)
    (idx : nat) (t : Task) :
  _selected_index a = Some idx -> tasks a !! idx = Some t ->
  edit_selected x p d a w = Ret (a, w)
  \/ edit_selected x p d a w = Ret (a, say (showwarning "Invalid Priority") w)
  \/ edit_selected x p d a w = Ret (a, say (showwarning "Invalid Date") w)
  \/ exists nt np nd ix rows,
       edit_selected x p d a w
       = Ret (with_view ix rows
                (with_tasks (<[idx := mkTask nt (done t) np nd (created t)]> (tasks a)) a),
              save_tasks (<[idx := mkTask nt (done t) np nd (created t)]> (tasks a))
                (save_tasks (<[idx := mkTask nt (done t) np nd (created t)]> (tasks a)) w))
       /\ view_ok (with_view ix rows
                     (with_tasks (<[idx := mkTask nt (done t) np nd (created t)]> (tasks a)) a))
       /\ (nt = title t \/ nt <> "")
       /\ listed_priority np
       /\ (nd = None \/ exists s, nd = Some s /\ parseable s).
Proof.
  intros Hsel Ht. unfold edit_selected. rewrite Hsel, Ht.
  destruct x as [x|]; [|auto]. destruct p as [p|]; [|auto].
  destruct (listed_priority_decide (capitalize p)) as [Hin Hout].
  destruct (decide (listed_priority (capitalize p))) as [Hp|Hp].
  2: { rewrite (Hout Hp). auto. }
  rewrite (Hin Hp). simpl. destruct d as [d|]; [|auto].
  destruct (due_entry_cases d) as [(Hn & _ & ->)|[(Hs & Hpd & ->)|(_ & _ & ->)]];
    simpl; [| |auto].
  - right. right. right.
    destruct (commit_returns a (<[idx := mkTask (str_or (strip x) (title t)) (done t)
                                          (capitalize p) (str_or_None (strip d))
                                          (created t)]> (tasks a)) w)
      as (ix & rows & Hr & _ & _ & Hv).
    exists (str_or (strip x) (title t)), (capitalize p), (str_or_None (strip d)), ix, rows.
    split; [exact Hr|]. split; [exact Hv|]. split; [|split; [exact Hp | left; exact Hn]].
    unfold str_or. destruct (truthy (strip x)) eqn:E; [right | left; reflexivity].
    apply truthy_true, E.
  - right. right. right.
    destruct (commit_returns a (<[idx := mkTask (str_or (strip x) (title t)) (done t)
                                          (capitalize p) (str_or_None (strip d))
                                          (created t)]> (tasks a)) w)
      as (ix & rows & Hr & _ & _ & Hv).
    exists (str_or (strip x) (title t)), (capitalize p), (str_or_None (strip d)), ix, rows.
    split; [exact Hr|]. split; [exact Hv|]. split; [|split; [exact Hp | right; eauto]].
    unfold str_or. destruct (truthy (strip x)) eqn:E; [right | left; reflexivity].
    apply truthy_true, E.
Qed.

(** X6. From a state whose index map is within the store, [edit_selected]
    returns whatever the three answers are, and it never adds, removes or
    moves a task: the store keeps its length, every task other than the
    selected one is untouched, and the selected one keeps [done] and
    [created]. *)
Theorem edit_selected_frame (x p d : option string) (a : TodoApp) (w : world) :
  view_ok a ->
  exists a' w',
    edit_selected x p d a w = Ret (a', w')
    /\ List.length (tasks a') = List.length (tasks a)
    /\ forall j t, tasks a !! j = Some t ->
         exists t', tasks a' !! j = Some t'
           /\ done t' = done t /\ created t' = created t
           /\ (_selected_index a <> Some j -> t' = t).
Proof.
  intros Hv. destruct (_selected_index a) as [idx|] eqn:Hsel.
  2: { unfold edit_selected. rewrite Hsel. eexists _, _. split; [reflexivity|].
       split; [reflexivity|]. intros j t Hj. exists t. auto. }
  destruct (_selected_index_task a idx Hv Hsel) as [t Ht].
  destruct (edit_selected_outcome x p d a w idx t Hsel Ht)
    as [H|[H|[H|(nt & np & nd & ix & rows & H & _)]]]; rewrite H;
    eexists _, _; (split; [reflexivity|]); simpl.
  1-3: split; [reflexivity|]; intros j t0 Hj; exists t0; auto.
  split; [apply length_insert|]. intros j t0 Hj.
  destruct (decide (idx = j)) as [<-|Hne].
  - rewrite list_lookup_insert_eq by (eapply lookup_lt_Some, Ht).
    rewrite Ht in Hj. injection Hj as <-.
    eexists. split; [reflexivity|]. simpl. split; [reflexivity|].
    split; [reflexivity|]. intros Hc. congruence.
  - rewrite list_lookup_insert_ne by exact Hne. exists t0. auto.
Qed.

Lemma edit_selected_frame_witness :
  exists a' w',
    edit_selected (Some "B") (Some "low") (Some "")
      (mkApp [mkTask "A" true "High" None "c1"; mkTask "Z" false "Low" None "c2"]
             [0; 1] "" "All" "" "Medium" "" [] (Some 0%Z))
      (mkWorld "" (mkDate 2025 9 4) None [] 0 []) = Ret (a', w')
    /\ List.length (tasks a') = 2.
Proof.
  destruct (edit_selected_frame (Some "B") (Some "low") (Some "")
              (mkApp [mkTask "A" true "High" None "c1"; mkTask "Z" false "Low" None "c2"]
                     [0; 1] "" "All" "" "Medium" "" [] (Some 0%Z))
              (mkWorld "" (mkDate 2025 9 4) None [] 0 []))
    as (a' & w' & Hr & Hl & _).
  - intros i Hi. simpl in *.
    apply elem_of_cons in Hi as [->|Hi]; [lia|].
    apply elem_of_cons in Hi as [->|Hi]; [lia|].
    apply elem_of_nil in Hi. contradiction.
  - exists a', w'. auto.
Defined.

(** *** toggle_selected and delete_selected *)

Lemma toggle_selected_commits (a : TodoApp) (w : world) (idx : nat) (t : Task) :
  _selected_index a = Some idx -> tasks a !! idx = Some t ->
  exists ix rows,
    toggle_selected a w
    = Ret (with_view ix rows (with_tasks (<[idx := flipped t]> (tasks a)) a),
           save_tasks (<[idx := flipped t]> (tasks a))
             (save_tasks (<[idx := flipped t]> (tasks a)) w))
    /\ view_ok (with_view ix rows (with_tasks (<[idx := flipped t]> (tasks a)) a)).
Proof.
  intros Hsel Ht. unfold toggle_selected. rewrite Hsel, Ht.
  destruct (commit_returns a (<[idx := flipped t]> (tasks a)) w)
    as (ix & rows & Hr & _ & _ & Hv).
  exists ix, rows. split; [exact Hr | exact Hv].
Qed.

Lemma delete_selected_commits (a : TodoApp) (w : world) (idx : nat) (t : Task) :
  _selected_index a = Some idx -> tasks a !! idx = Some t ->
  exists ix rows,
    delete_selected true a w
    = Ret (with_view ix rows (with_tasks (delete idx (tasks a)) a),
           save_tasks (delete idx (tasks a)) (save_tasks (delete idx (tasks a)) w))
    /\ StronglySorted lt ix
    /\ (forall j, j ∈ ix <->
          shown_at (today w) (filter_var a) (search_var a) (delete idx (tasks a)) j)
    /\ view_ok (with_view ix rows (with_tasks (delete idx (tasks a)) a)).
Proof.
  intros Hsel Ht. unfold delete_selected. rewrite Hsel, Ht.
  destruct (commit_returns a (delete idx (tasks a)) w)
    as (ix & rows & Hr & Hs & Hin & Hv).
  exists ix, rows. auto.
Qed.

(** X7. [toggle_selected] on a selection that resolves to a task negates
    the [done] flag of that task and changes nothing else in the store:
    same length, every other task as it was, and title, priority, due and
    created of the toggled task as they were. Without a selection it does
    nothing at all. *)
Theorem toggle_selected_flips_one (a : TodoApp) (w : world) :
  view_ok a ->
  (_selected_index a = None -> toggle_selected a w = Ret (a, w))
  /\ forall idx, _selected_index a = Some idx ->
       exists a' w' t,
         toggle_selected a w = Ret (a', w')
         /\ tasks a !! idx = Some t
         /\ tasks a' = <[idx := flipped t]> (tasks a)
         /\ List.length (tasks a') = List.length (tasks a)
         /\ forall j, j <> idx -> tasks a' !! j = tasks a !! j.
Proof.
  intros Hv. split.
  - intros H. unfold toggle_selected. rewrite H. reflexivity.
  - intros idx Hsel. destruct (_selected_index_task a idx Hv Hsel) as [t Ht].
    destruct (toggle_selected_commits a w idx t Hsel Ht) as (ix & rows & Hr & _).
    eexists _, _, t. split; [exact Hr|]. simpl. split; [exact Ht|].
    split; [reflexivity|]. split; [apply length_insert|].
    intros j Hj. apply list_lookup_insert_ne. congruence.
Qed.

Lemma toggle_selected_flips_one_witness :
  exists a' w' t,
    toggle_selected
      (mkApp [mkTask "A" false "High" None "c1"] [0] "" "All" "" "Medium" "" []
             (Some 0%Z))
      (mkWorld "" (mkDate 2025 9 4) None [] 0 []) = Ret (a', w')
    /\ tasks a' = <[0 := flipped t]> [mkTask "A" false "High" None "c1"].
Proof.
  destruct (proj2 (toggle_selected_flips_one
                     (mkApp [mkTask "A" false "High" None "c1"] [0] "" "All" ""
                            "Medium" "" [] (Some 0%Z))
                     (mkWorld "" (mkDate 2025 9 4) None [] 0 [])
                     ltac:(intros i Hi; apply elem_of_cons in Hi as [->|Hi];
                           [simpl; lia | apply elem_of_nil in Hi; contradiction]))
              0 eq_refl)
    as (a' & w' & t & Hr & _ & Hts & _).
  exists a', w', t. auto.
Defined.

Lemma flipped_flipped (t : Task) : flipped (flipped t) = t.
Proof. destruct t as [ti dn pr du cr]. unfold flipped. simpl. rewrite negb_involutive. reflexivity. Qed.

(** X8. Toggling the same task twice gives the store back: after a toggle
    of the task at [idx], selecting any row that resolves to [idx] again
    and toggling once more leaves every task as it was at the start. *)
Theorem toggle_selected_twice (a a1 : TodoApp) (w w1 : world) (idx : nat)
    (sel : option Z) :
  view_ok a ->
  _selected_index a = Some idx ->
  toggle_selected a w = Ret (a1, w1) ->
  _selected_index (with_selection sel a1) = Some idx ->
  exists a2 w2,
    toggle_selected (with_selection sel a1) w1 = Ret (a2, w2)
    /\ tasks a2 = tasks a.
Proof.
  intros Hv Hsel H1 Hsel1.
  destruct (_selected_index_task a idx Hv Hsel) as [t Ht].
  destruct (toggle_selected_commits a w idx t Hsel Ht) as (ix & rows & Hr & _).
  rewrite Hr in H1. injection H1 as <- <-.
  assert (Ht1 : tasks (with_selection sel
                         (with_view ix rows (with_tasks (<[idx := flipped t]> (tasks a)) a)))
                !! idx = Some (flipped t)).
  { simpl. apply list_lookup_insert_eq. eapply lookup_lt_Some, Ht. }
  destruct (toggle_selected_commits _ (save_tasks (<[idx := flipped t]> (tasks a))
                                         (save_tasks (<[idx := flipped t]> (tasks a)) w))
              idx (flipped t) Hsel1 Ht1) as (ix2 & rows2 & Hr2 & _).
  eexists _, _. split; [exact Hr2|]. simpl.
  rewrite list_insert_insert_eq, flipped_flipped. apply list_insert_id, Ht.
Qed.

Lemma toggle_selected_twice_witness :
  exists a2 w2,
    toggle_selected
      (with_selection (Some 0%Z)
         (with_view [0] [("A", "High", "", "Done")]
            (with_tasks [mkTask "A" true "High" None "c1"]
               (mkApp [mkTask "A" false "High" None "c1"] [0] "" "All" "" "Medium"
                      "" [] (Some 0%Z)))))
      (save_tasks [mkTask "A" true "High" None "c1"]
         (save_tasks [mkTask "A" true "High" None "c1"]
            (mkWorld "" (mkDate 2025 9 4) None [] 0 [])))
    = Ret (a2, w2)
    /\ tasks a2 = [mkTask "A" false "High" None "c1"].
Proof.
  apply (toggle_selected_twice
           (mkApp [mkTask "A" false "High" None "c1"] [0] "" "All" "" "Medium" "" []
                  (Some 0%Z))
           _ (mkWorld "" (mkDate 2025 9 4) None [] 0 []) _ 0 (Some 0%Z)).
  - intros i Hi. apply elem_of_cons in Hi as [->|Hi];
      [simpl; lia | apply elem_of_nil in Hi; contradiction].
  - reflexivity.
  - vm_compute. reflexivity.
  - reflexivity.
Defined.

(** X9. [delete_selected] removes exactly the selected task: the store is
    shorter by one, the tasks before the position stay where they are and
    the tasks after it move down by one. Answering No to the question, or
    having nothing selected, changes nothing and writes nothing. *)
Theorem delete_selected_removes_one (a : TodoApp) (w : world) :
  view_ok a ->
  delete_selected false a w = Ret (a, w)
  /\ (_selected_index a = None -> delete_selected true a w = Ret (a, w))
  /\ forall idx, _selected_index a = Some idx ->
       exists a' w',
         delete_selected true a w = Ret (a', w')
         /\ S (List.length (tasks a')) = List.length (tasks a)
         /\ (forall j, j < idx -> tasks a' !! j = tasks a !! j)
         /\ (forall j, idx <= j -> tasks a' !! j = tasks a !! S j).
Proof.
  intros Hv. split; [|split].
  - unfold delete_selected. destruct (_selected_index a) as [idx|] eqn:Hsel; [|reflexivity].
    destruct (_selected_index_task a idx Hv Hsel) as [t ->]. reflexivity.
  - intros H. unfold delete_selected. rewrite H. reflexivity.
  - intros idx Hsel. destruct (_selected_index_task a idx Hv Hsel) as [t Ht].
    destruct (delete_selected_commits a w idx t Hsel Ht) as (ix & rows & Hr & _).
    eexists _, _. split; [exact Hr|]. simpl.
    split; [|split].
    + rewrite length_delete by eauto. pose proof (lookup_lt_Some _ _ _ Ht). lia.
    + intros j Hj. apply list_lookup_delete_lt, Hj.
    + intros j Hj. apply list_lookup_delete_ge, Hj.
Qed.

Lemma delete_selected_removes_one_witness :
  exists a' w',
    delete_selected true
      (mkApp [mkTask "A" false "High" None "c1"; mkTask "B" false "Low" None "c2"]
             [0; 1] "" "All" "" "Medium" "" [] (Some 0%Z))
      (mkWorld "" (mkDate 2025 9 4) None [] 0 []) = Ret (a', w')
    /\ tasks a' !! 0 = Some (mkTask "B" false "Low" None "c2").
Proof.
  destruct (proj2 (proj2 (delete_selected_removes_one
                     (mkApp [mkTask "A" false "High" None "c1";
                             mkTask "B" false "Low" None "c2"]
                            [0; 1] "" "All" "" "Medium" "" [] (Some 0%Z))
                     (mkWorld "" (mkDate 2025 9 4) None [] 0 [])
                     ltac:(intros i Hi; apply elem_of_cons in Hi as [->|Hi];
                           [simpl; lia|];
                           apply elem_of_cons in Hi as [->|Hi];
                           [simpl; lia | apply elem_of_nil in Hi; contradiction])))
              0 eq_refl)
    as (a' & w' & Hr & _ & _ & Hge).
  exists a', w'. split; [exact Hr|]. rewrite (Hge 0) by lia. reflexivity.
Defined.

(** X10. After [delete_selected] has removed position [idx], the rebuilt
    index map holds, in increasing order, the positions below [idx] that
    pass filter and search as before, and, for every position above
    [idx] that passes them, that position less one. *)
Theorem delete_selected_shifts_view (a : TodoApp) (w : world) (idx : nat) :
  view_ok a ->
  _selected_index a = Some idx ->
  exists a' w',
    delete_selected true a w = Ret (a', w')
    /\ StronglySorted lt (filtered_indices a')
    /\ forall j, j ∈ filtered_indices a' <->
         (j < idx /\ shown_at (today w) (filter_var a) (search_var a) (tasks a) j)
         \/ (idx <= j
             /\ shown_at (today w) (filter_var a) (search_var a) (tasks a) (S j)).
Proof.
  intros Hv Hsel. destruct (_selected_index_task a idx Hv Hsel) as [t Ht].
  destruct (delete_selected_commits a w idx t Hsel Ht) as (ix & rows & Hr & Hs & Hin & _).
  eexists _, _. split; [exact Hr|]. simpl. split; [exact Hs|].
  intros j. rewrite Hin. unfold shown_at. rewrite list_lookup_delete.
  case_decide; split.
  - intros H'. left. auto.
  - intros [[_ H']|[Hle _]]; [exact H' | lia].
  - intros H'. right. split; [lia | exact H'].
  - intros [[Hlt _]|[_ H']]; [lia | exact H'].
Qed.

Lemma delete_selected_shifts_view_witness :
  exists a' w',
    delete_selected true
      (mkApp [mkTask "A" false "High" None "c1"; mkTask "B" false "Low" None "c2"]
             [0; 1] "" "All" "" "Medium" "" [] (Some 0%Z))
      (mkWorld "" (mkDate 2025 9 4) None [] 0 []) = Ret (a', w')
    /\ 0 ∈ filtered_indices a'.
Proof.
  destruct (delete_selected_shifts_view
              (mkApp [mkTask "A" false "High" None "c1"; mkTask "B" false "Low" None "c2"]
                     [0; 1] "" "All" "" "Medium" "" [] (Some 0%Z))
              (mkWorld "" (mkDate 2025 9 4) None [] 0 []) 0)
    as (a' & w' & Hr & _ & Hin).
  - intros i Hi. apply elem_of_cons in Hi as [->|Hi]; [simpl; lia|].
    apply elem_of_cons in Hi as [->|Hi];
      [simpl; lia | apply elem_of_nil in Hi; contradiction].
  - reflexivity.
  - exists a', w'. split; [exact Hr|]. apply Hin. right. split; [lia|].
    eexists. split; [reflexivity|]. split; reflexivity.
Defined.

(** *** clear_completed *)

Lemma filter_pending_id (ts : list Task) :
  Forall (fun t => done t = false) ts ->
  List.filter (fun t => negb (done t)) ts = ts.
Proof.
  induction 1 as [|t ts Ht _ IH]; simpl; [reflexivity|].
  rewrite Ht. simpl. congruence.
Qed.

Lemma filter_pending_length (ts : list Task) :
  List.length (List.filter (fun t => negb (done t)) ts) <= List.length ts.
Proof. apply sublist_length, filter_pending_sublist. Qed.

Lemma filter_pending_shorter (ts : list Task) :
  Exists (fun t => done t = true) ts ->
  List.length (List.filter (fun t => negb (done t)) ts) < List.length ts.
Proof.
  induction 1 as [t ts Ht|t ts _ IH]; simpl.
  - rewrite Ht. simpl. pose proof (filter_pending_length ts). lia.
  - destruct (done t); simpl; [pose proof (filter_pending_length ts)|]; lia.
Qed.

Lemma with_tasks_same (a : TodoApp) : with_tasks (tasks a) a = a.
Proof. destruct a. reflexivity. Qed.

Lemma clear_completed_nothing_done (a : TodoApp) (w : world) :
  Forall (fun t => done t = false) (tasks a) -> clear_completed a w = Ret (a, w).
Proof.
  intros H. unfold clear_completed. rewrite (filter_pending_id _ H).
  rewrite Nat.eqb_refl. simpl. rewrite with_tasks_same. reflexivity.
Qed.

Lemma clear_completed_some_done (a : TodoApp) (w : world) :
  Exists (fun t => done t = true) (tasks a) ->
  exists ix rows,
    clear_completed a w
    = Ret (with_view ix rows
             (with_tasks (List.filter (fun t => negb (done t)) (tasks a)) a),
           save_tasks (List.filter (fun t => negb (done t)) (tasks a))
             (save_tasks (List.filter (fun t => negb (done t)) (tasks a)) w))
    /\ view_ok (with_view ix rows
                  (with_tasks (List.filter (fun t => negb (done t)) (tasks a)) a)).
Proof.
  intros H. unfold clear_completed.
  pose proof (filter_pending_shorter _ H) as Hlt.
  destruct (Nat.eqb_spec (List.length (List.filter (fun t => negb (done t)) (tasks a)))
              (List.length (tasks a))) as [E|_]; [lia|]. simpl.
  destruct (commit_returns a (List.filter (fun t => negb (done t)) (tasks a)) w)
    as (ix & rows & Hr & _ & _ & Hv).
  exists ix, rows. auto.
Qed.

(** X11. [clear_completed] touches the file only when it removes
    something. With no done task it returns the application and the world
    exactly as they were. With a done task in the store, the store gets
    shorter, the file is opened for writing twice, and a second
    [clear_completed] right after is such a no-op. *)
Theorem clear_completed_writes_on_change (a : TodoApp) (w : world) :
  (Forall (fun t => done t = false) (tasks a) -> clear_completed a w = Ret (a, w))
  /\ (Exists (fun t => done t = true) (tasks a) ->
      exists a' w',
        clear_completed a w = Ret (a', w')
        /\ List.length (tasks a') < List.length (tasks a)
        /\ opened_w w' = S (S (opened_w w))
        /\ clear_completed a' w' = Ret (a', w')).
Proof.
  split; [apply clear_completed_nothing_done|].
  intros H. destruct (clear_completed_some_done a w H) as (ix & rows & Hr & _).
  eexists _, _. split; [exact Hr|]. simpl.
  split; [apply filter_pending_shorter, H|].
  split; [rewrite !save_tasks_opens; reflexivity|].
  apply clear_completed_nothing_done. simpl. apply filter_pending_Forall.
Qed.

Lemma clear_completed_writes_on_change_witness :
  clear_completed
    (mkApp [mkTask "A" false "High" None "c1"] [0] "" "All" "" "Medium" "" [] None)
    (mkWorld "" (mkDate 2025 9 4) None [] 0 [])
  = Ret (mkApp [mkTask "A" false "High" None "c1"] [0] "" "All" "" "Medium" "" [] None,
         mkWorld "" (mkDate 2025 9 4) None [] 0 [])
  /\ exists a' w',
       clear_completed
         (mkApp [mkTask "A" true "High" None "c1"] [0] "" "All" "" "Medium" "" [] None)
         (mkWorld "" (mkDate 2025 9 4) None [] 0 []) = Ret (a', w')
       /\ opened_w w' = 2.
Proof.
  split.
  - apply (clear_completed_writes_on_change
             (mkApp [mkTask "A" false "High" None "c1"] [0] "" "All" "" "Medium" "" [] None)
             (mkWorld "" (mkDate 2025 9 4) None [] 0 [])).
    constructor; [reflexivity | constructor].
  - destruct (proj2 (clear_completed_writes_on_change
                (mkApp [mkTask "A" true "High" None "c1"] [0] "" "All" "" "Medium" "" [] None)
                (mkWorld "" (mkDate 2025 9 4) None [] 0 [])))
      as (a' & w' & Hr & _ & Ho & _).
    + left. reflexivity.
    + exists a', w'. auto.
Defined.

(** ** Invariants of a session *)

Lemma filter_pending_keeps (P : Task -> Prop) (ts : list Task) :
  Forall P ts -> Forall P (List.filter (fun t => negb (done t)) ts).
Proof.
  induction 1 as [|t ts Ht _ IH]; simpl; [constructor|].
  destruct (done t); simpl; [exact IH | constructor; assumption].
Qed.

Lemma done_or_pending (ts : list Task) :
  Forall (fun t => done t = false) ts \/ Exists (fun t => done t = true) ts.
Proof.
  induction ts as [|t ts [IH|IH]].
  - left. constructor.
  - destruct (done t) eqn:E; [right; left; exact E | left; constructor; assumption].
  - right. right. exact IH.
Qed.

Lemma listed_entry (p : string) :
  listed_priority p -> listed_priority (str_or (strip p) "Medium").
Proof.
  unfold listed_priority. rewrite !elem_of_cons, elem_of_nil.
  intros [->|[->|[->|[]]]]; vm_compute; auto.
Qed.

Lemma listed_Medium : listed_priority "Medium".
Proof. unfold listed_priority. rewrite !elem_of_cons. auto. Qed.

Lemma flipped_ok (t : Task) : task_ok t -> task_ok (flipped t).
Proof. intros H. exact H. Qed.

(** One event, from a state whose index map is within the store: the
    handler returns, and it keeps the three invariants. *)
Lemma handle_step (cls : Task_class) (ev : event) (a : TodoApp) (w : world) :
  view_ok a ->
  exists a' w',
    handle cls ev a w = Ret (a', w')
    /\ view_ok a'
    /\ (Forall task_ok (tasks a) -> Forall task_ok (tasks a'))
    /\ (offers_listed ev -> listed_priority (priority_var a) ->
        Forall (fun t => listed_priority (priority t)) (tasks a) ->
        listed_priority (priority_var a')
        /\ Forall (fun t => listed_priority (priority t)) (tasks a')).
Proof.
  intros Hv. destruct ev as [s|p|s|sel|q|f| |x p d| |yes| |now day plan]; simpl.
  - eexists _, _. split; [reflexivity|]. simpl. auto.
  - eexists _, _. split; [reflexivity|]. simpl. auto.
  - eexists _, _. split; [reflexivity|]. simpl. auto.
  - eexists _, _. split; [reflexivity|]. simpl. auto.
  - unfold search_var_set.
    destruct (refresh_view_shape (with_search q a) w) as (ix & rows & Hr & _ & Hin & _).
    eexists _, _. split; [exact Hr|]. simpl. split; [|auto].
    intros i Hi. simpl in *. eapply shown_at_lt, Hin, Hi.
  - unfold filter_var_set.
    destruct (refresh_view_shape (with_filter f a) w) as (ix & rows & Hr & _ & Hin & _).
    eexists _, _. split; [exact Hr|]. simpl. split; [|auto].
    intros i Hi. simpl in *. eapply shown_at_lt, Hin, Hi.
  - destruct (decide (strip (title_var a) = "")) as [Ht|Ht].
    { rewrite (add_task_blank_title cls a w Ht). eexists _, _. split; [reflexivity|]. auto. }
    destruct (due_entry_cases (due_var a)) as [(Hn & Hb & _)|[(Hs & Hp & _)|(Hne & Hp & _)]].
    + destruct (add_task_accepts cls a w Ht (or_introl Hb)) as (ix & rows & Hr & Hv').
      eexists _, _. split; [exact Hr|]. split; [exact Hv'|]. simpl. split.
      * intros Hok. apply Forall_app. split; [exact Hok|].
        constructor; [|constructor]. split; simpl; [exact Ht | left; exact Hn].
      * intros _ Hl Hall. split; [apply listed_Medium|].
        apply Forall_app. split; [exact Hall|].
        constructor; [|constructor]. simpl. apply listed_entry, Hl.
    + destruct (add_task_accepts cls a w Ht (or_intror Hp)) as (ix & rows & Hr & Hv').
      eexists _, _. split; [exact Hr|]. split; [exact Hv'|]. simpl. split.
      * intros Hok. apply Forall_app. split; [exact Hok|].
        constructor; [|constructor]. split; simpl; [exact Ht | right; eauto].
      * intros _ Hl Hall. split; [apply listed_Medium|].
        apply Forall_app. split; [exact Hall|].
        constructor; [|constructor]. simpl. apply listed_entry, Hl.
    + rewrite (add_task_bad_date cls a w Ht Hne Hp).
      eexists _, _. split; [reflexivity|]. auto.
  - destruct (_selected_index a) as [idx|] eqn:Hsel.
    2: { unfold edit_selected. rewrite Hsel. eexists _, _. split; [reflexivity|]. auto. }
    destruct (_selected_index_task a idx Hv Hsel) as [t Ht].
    destruct (edit_selected_outcome x p d a w idx t Hsel Ht)
      as [H|[H|[H|(nt & np & nd & ix & rows & H & Hv' & Hnt & Hnp & Hnd)]]]; rewrite H.
    1-3: eexists _, _; (split; [reflexivity|]); auto.
    eexists _, _. split; [reflexivity|]. split; [exact Hv'|]. simpl. split.
    + intros Hok. apply Forall_insert; [exact Hok|].
      destruct (proj1 (Forall_lookup _ _) Hok idx t Ht) as [Htt _].
      split; simpl; [|exact Hnd]. destruct Hnt as [->|Hnt]; assumption.
    + intros _ Hl Hall. split; [exact Hl|]. apply Forall_insert; [exact Hall | exact Hnp].
  - destruct (_selected_index a) as [idx|] eqn:Hsel.
    2: { unfold toggle_selected. rewrite Hsel. eexists _, _. split; [reflexivity|]. auto. }
    destruct (_selected_index_task a idx Hv Hsel) as [t Ht].
    destruct (toggle_selected_commits a w idx t Hsel Ht) as (ix & rows & Hr & Hv').
    eexists _, _. split; [exact Hr|]. split; [exact Hv'|]. simpl. split.
    + intros Hok. apply Forall_insert; [exact Hok|].
      apply flipped_ok, (proj1 (Forall_lookup _ _) Hok idx t Ht).
    + intros _ Hl Hall. split; [exact Hl|]. apply Forall_insert; [exact Hall|].
      exact (proj1 (Forall_lookup _ _) Hall idx t Ht).
  - destruct yes.
    2: { unfold delete_selected. destruct (_selected_index a) as [idx|] eqn:Hsel.
         - destruct (_selected_index_task a idx Hv Hsel) as [t ->].
           eexists _, _. split; [reflexivity|]. auto.
         - eexists _, _. split; [reflexivity|]. auto. }
    destruct (_selected_index a) as [idx|] eqn:Hsel.
    2: { unfold delete_selected. rewrite Hsel. eexists _, _. split; [reflexivity|]. auto. }
    destruct (_selected_index_task a idx Hv Hsel) as [t Ht].
    destruct (delete_selected_commits a w idx t Hsel Ht) as (ix & rows & Hr & _ & _ & Hv').
    eexists _, _. split; [exact Hr|]. split; [exact Hv'|]. simpl. split.
    + apply Forall_delete.
    + intros _ Hl Hall. split; [exact Hl | apply Forall_delete, Hall].
  - destruct (done_or_pending (tasks a)) as [Hp|Hd].
    + rewrite (clear_completed_nothing_done a w Hp).
      eexists _, _. split; [reflexivity|]. auto.
    + destruct (clear_completed_some_done a w Hd) as (ix & rows & Hr & Hv').
      eexists _, _. split; [exact Hr|]. split; [exact Hv'|]. simpl. split.
      * apply filter_pending_keeps.
      * intros _ Hl Hall. split; [exact Hl | apply filter_pending_keeps, Hall].
  - eexists _, _. split; [reflexivity|]. auto.
Qed.

Lemma run_invariants (cls : Task_class) (evs : list event) (a : TodoApp) (w : world) :
  view_ok a ->
  exists a' w',
    run cls evs a w = Ret (a', w')
    /\ view_ok a'
    /\ (Forall task_ok (tasks a) -> Forall task_ok (tasks a'))
    /\ (Forall offers_listed evs -> listed_priority (priority_var a) ->
        Forall (fun t => listed_priority (priority t)) (tasks a) ->
        listed_priority (priority_var a')
        /\ Forall (fun t => listed_priority (priority t)) (tasks a')).
Proof.
  revert a w. induction evs as [|ev evs IH]; intros a w Hv; simpl.
  - eexists _, _. split; [reflexivity|]. auto.
  - destruct (handle_step cls ev a w Hv) as (a1 & w1 & Hr & Hv1 & Hok1 & Hl1).
    rewrite Hr. simpl.
    destruct (IH a1 w1 Hv1) as (a2 & w2 & Hr2 & Hv2 & Hok2 & Hl2).
    exists a2, w2. split; [exact Hr2|]. split; [exact Hv2|]. split; [auto|].
    intros Hevs Hl Hall. apply Forall_cons in Hevs as [Hev Hevs].
    destruct (Hl1 Hev Hl Hall) as [Hl' Hall']. auto.
Qed.




(** X13. The handlers keep the store well formed: if every task has a
    title that is not empty and a due date that is absent or parses as a
    date, then so it is after any sequence of events. ([load_tasks] is not
    among them: it takes titles and due texts as the file has them.) *)
Theorem session_keeps_tasks_ok (cls : Task_class) (evs : list event)
    (a : TodoApp) (w : world) :
  view_ok a ->
  Forall task_ok (tasks a) ->
  exists a' w',
    run cls evs a w = Ret (a', w') /\ Forall task_ok (tasks a').
Proof.
  intros Hv Hok.
  destruct (run_invariants cls evs a w Hv) as (a' & w' & Hr & _ & Hok' & _).
  exists a', w'. auto.
Qed.

Lemma session_keeps_tasks_ok_witness :
  exists a' w',
    run (Build_Task_class "2025-09-01 08:00:00")
      [Type_title "  "; Press_add; Type_title "B"; Type_due "2025-13-01"; Press_add;
       Select_row (Some 0%Z); Press_edit (Some "") (Some "low") (Some "")]
      (mkApp [mkTask "A" false "High" None "c1"] [0] "" "All" "" "Medium" "" [] None)
      (mkWorld "2025-09-04 12:00:00" (mkDate 2025 9 4) None [] 0 [])
    = Ret (a', w')
    /\ Forall task_ok (tasks a').
Proof.
  apply (session_keeps_tasks_ok (Build_Task_class "2025-09-01 08:00:00")).
  - intros i Hi. apply elem_of_cons in Hi as [->|Hi];
      [simpl; lia | apply elem_of_nil in Hi; contradiction].
  - constructor; [|constructor]. split; [discriminate | left; reflexivity].
Defined.

(** X14. As long as the priority variable holds one of Low, Medium and
    High (the read-only combobox offers nothing else), the handlers keep
    every priority of the store within the three: [add_task] stores the
    variable, [edit_selected] checks the answer, the others do not touch
    priorities. *)
Theorem session_keeps_priorities_listed (cls : Task_class) (evs : list event)
    (a : TodoApp) (w : world) :
  view_ok a ->
  Forall offers_listed evs ->
  listed_priority (priority_var a) ->
  Forall (fun t => listed_priority (priority t)) (tasks a) ->
  exists a' w',
    run cls evs a w = Ret (a', w')
    /\ Forall (fun t => listed_priority (priority t)) (tasks a').
Proof.
  intros Hv Hevs Hl Hall.
  destruct (run_invariants cls evs a w Hv) as (a' & w' & Hr & _ & _ & Hl').
  exists a', w'. split; [exact Hr|]. apply Hl'; assumption.
Qed.

Lemma session_keeps_priorities_listed_witness :
  exists a' w',
    run (Build_Task_class "2025-09-01 08:00:00")
      [Type_title "B"; Choose_priority "High"; Press_add;
       Select_row (Some 0%Z); Press_edit (Some "") (Some "urgent") (Some "")]
      (mkApp [mkTask "A" false "High" None "c1"] [0] "" "All" "" "Medium" "" [] None)
      (mkWorld "2025-09-04 12:00:00" (mkDate 2025 9 4) None [] 0 [])
    = Ret (a', w')
    /\ Forall (fun t => listed_priority (priority t)) (tasks a').
Proof.
  apply (session_keeps_priorities_listed (Build_Task_class "2025-09-01 08:00:00")).
  - intros i Hi. apply elem_of_cons in Hi as [->|Hi];
      [simpl; lia | apply elem_of_nil in Hi; contradiction].
  - repeat constructor.
  - apply listed_Medium.
  - constructor; [|constructor]. unfold listed_priority. simpl.
    rewrite !elem_of_cons. auto.
Defined.

(** ** Loading *)

Lemma load_loop_not_a_dict (cls : Task_class) (now : string) (items : list json)
    (acc : option (list Task)) :
  Exists (fun item => forall d, item <> JObj d) items ->
  load_loop cls now items acc = Raise AttributeError.
Proof.
  intros H. revert acc. induction H as [item items Hi|item items _ IH]; intros acc; simpl.
  - destruct item; try reflexivity. exfalso. eapply Hi. reflexivity.
  - destruct item; try reflexivity. apply IH.
Qed.

(** X15. When [load_tasks] gives up. A backing file that does not exist
    gives the empty list and no message. A file whose text is not a JSON
    document, a document that is null, a boolean or a number, and a list
    in which some item is not an object (whatever the other items are)
    give the empty list and the message Load Error: not one record of the
    file is kept. *)
Theorem load_tasks_gives_up (cls : Task_class) (w : world) :
  (file w = None -> load_tasks cls w = (Some [], w))
  /\ (file w = Some Cut ->
      load_tasks cls w = (Some [], say (showerror "Load Error") w))
  /\ (forall raw, file w = Some (Doc raw) ->
      raw = JNull \/ (exists b, raw = JBool b) \/ (exists n, raw = JNum n) ->
      load_tasks cls w = (Some [], say (showerror "Load Error") w))
  /\ (forall items, file w = Some (Doc (JArr items)) ->
      Exists (fun item => forall d, item <> JObj d) items ->
      load_tasks cls w = (Some [], say (showerror "Load Error") w)).
Proof.
  unfold load_tasks. repeat split.
  - intros ->. reflexivity.
  - intros ->. reflexivity.
  - intros raw -> [->|[[b ->]|[n ->]]]; reflexivity.
  - intros items -> H. simpl. rewrite load_loop_not_a_dict by exact H. reflexivity.
Qed.

Lemma load_tasks_gives_up_witness :
  load_tasks (Build_Task_class "2025-09-01 08:00:00")
    (mkWorld "2025-09-04 12:00:00" (mkDate 2025 9 4)
       (Some (Doc (JArr [JObj (<["title" := JStr "A"]> ∅); JStr "B"]))) [] 0 [])
  = (Some [],
     say (showerror "Load Error")
       (mkWorld "2025-09-04 12:00:00" (mkDate 2025 9 4)
          (Some (Doc (JArr [JObj (<["title" := JStr "A"]> ∅); JStr "B"]))) [] 0 [])).
Proof.
  apply (load_tasks_gives_up (Build_Task_class "2025-09-01 08:00:00")
           (mkWorld "2025-09-04 12:00:00" (mkDate 2025 9 4)
              (Some (Doc (JArr [JObj (<["title" := JStr "A"]> ∅); JStr "B"]))) [] 0 [])
         ) with (items := [JObj (<["title" := JStr "A"]> ∅); JStr "B"]).
  - reflexivity.
  - right. left. intros d. discriminate.
Defined.

Lemma Task_of_item_fields (cls : Task_class) (now : string) (d : gmap string json)
    (t : Task) :
  Task_of_item cls now d = Some t ->
  (forall s, d !! "title" = Some (JStr s) -> title t = s)
  /\ (d !! "done" = None -> done t = false)
  /\ (forall v, d !! "done" = Some v -> done t = py_bool v)
  /\ (d !! "priority" = None -> priority t = "Medium")
  /\ (forall s, d !! "priority" = Some (JStr s) -> priority t = s)
  /\ (d !! "due" = None \/ d !! "due" = Some JNull -> due t = None)
  /\ (forall s, d !! "due" = Some (JStr s) -> due t = Some s)
  /\ (d !! "created" = None -> created t = now)
  /\ (forall s, d !! "created" = Some (JStr s) -> created t = s).
Proof.
  unfold Task_of_item, dict_get.
  destruct (d !! "title") as [vt|]; simpl;
    [destruct vt; simpl; try discriminate|];
    (destruct (d !! "priority") as [vp|]; simpl;
       [destruct vp; simpl; try discriminate|]);
    (destruct (d !! "due") as [vu|]; simpl;
       [destruct vu; simpl; try discriminate|]);
    (destruct (d !! "created") as [vc|]; simpl;
       [destruct vc; simpl; try discriminate|]);
    (destruct (d !! "done") as [vd|]; simpl);
    intros [= <-]; simpl;
    repeat split; intros; try congruence;
    try match goal with H : _ \/ _ |- _ => destruct H; congruence end.
Qed.

(** X16. How [load_tasks] fills a task from a stored record. A field that
    is present goes into the task as the file has it ([done] through
    [bool]); a record without [done] gives a task that is not done,
    without [priority] the priority Medium, without [due] or with a null
    [due] no due date, and without [created] the time of loading. *)
Theorem load_tasks_fills_defaults (cls : Task_class) (w : world) (items : list json) :
  file w = Some (Doc (JArr items)) ->
  Forall stored_record items ->
  exists ts,
    load_tasks cls w = (Some ts, w)
    /\ forall k d, items !! k = Some (JObj d) ->
         exists t, ts !! k = Some t
           /\ (forall s, d !! "title" = Some (JStr s) -> title t = s)
           /\ (d !! "done" = None -> done t = false)
           /\ (forall v, d !! "done" = Some v -> done t = py_bool v)
           /\ (d !! "priority" = None -> priority t = "Medium")
           /\ (forall s, d !! "priority" = Some (JStr s) -> priority t = s)
           /\ (d !! "due" = None \/ d !! "due" = Some JNull -> due t = None)
           /\ (forall s, d !! "due" = Some (JStr s) -> due t = Some s)
           /\ (d !! "created" = None -> created t = clock w)
           /\ (forall s, d !! "created" = Some (JStr s) -> created t = s).
Proof.
  intros Hf Hitems. unfold load_tasks. rewrite Hf. simpl.
  destruct (load_loop_typed cls (clock w) items [] Hitems) as (ts & -> & Hts).
  simpl. exists ts. split; [reflexivity|].
  intros k d Hk.
  destruct (Forall2_lookup_l _ _ _ _ _ Hts Hk) as (t & Ht & d' & [= <-] & Hof).
  exists t. split; [exact Ht|]. apply (Task_of_item_fields cls (clock w) d t Hof).
Qed.

Lemma load_tasks_fills_defaults_witness :
  exists ts,
    load_tasks (Build_Task_class "2025-09-01 08:00:00")
      (mkWorld "2025-09-04 12:00:00" (mkDate 2025 9 4)
         (Some (Doc (JArr [JObj (<["title" := JStr "A"]> ∅)]))) [] 0 [])
    = (Some ts,
       mkWorld "2025-09-04 12:00:00" (mkDate 2025 9 4)
         (Some (Doc (JArr [JObj (<["title" := JStr "A"]> ∅)]))) [] 0 [])
    /\ exists t, ts !! 0 = Some t /\ priority t = "Medium"
                 /\ created t = "2025-09-04 12:00:00".
Proof.
  destruct (load_tasks_fills_defaults (Build_Task_class "2025-09-01 08:00:00")
              (mkWorld "2025-09-04 12:00:00" (mkDate 2025 9 4)
                 (Some (Doc (JArr [JObj (<["title" := JStr "A"]> ∅)]))) [] 0 [])
              [JObj (<["title" := JStr "A"]> ∅)])
    as (ts & Hl & Hk).
  - reflexivity.
  - constructor; [|constructor]. eexists. split; [reflexivity|].
    repeat split; intros v Hv; simplify_map_eq. eexists. reflexivity.
  - exists ts. split; [exact Hl|].
    destruct (Hk 0 _ eq_refl) as (t & Ht & _ & _ & _ & Hp & _ & _ & _ & Hc & _).
    exists t. split; [exact Ht|]. split; [apply Hp | apply Hc]; simplify_map_eq; reflexivity.
Defined.

(** X17. Starting the program on a backing file that cannot be loaded
    destroys what the file held: [__init__] shows Load Error, starts with
    an empty store, and its first [refresh_view] saves that empty store
    over the file (when the disk does not fail). Starting without a
    backing file creates one that holds the empty list. *)
Theorem startup_overwrites_unloadable_file (cls : Task_class) (w : world) :
  default Fine (head (disk w)) = Fine ->
  load_tasks cls w = (Some [], say (showerror "Load Error") w) \/ file w = None ->
  exists a0 w0,
    TodoApp_init cls w = Some (Ret (a0, w0))
    /\ tasks a0 = []
    /\ file w0 = Some (Doc (JArr [])).
Proof.
  intros Hd H.
  assert (exists w1, load_tasks cls w = (Some [], w1) /\ disk w1 = disk w)
    as (w1 & Hl & Hd1).
  { destruct H as [H|H].
    - rewrite H. eexists. split; [reflexivity|]. reflexivity.
    - exists w. split; [|reflexivity]. unfold load_tasks. rewrite H. reflexivity. }
  unfold TodoApp_init. rewrite Hl. simpl.
  destruct (refresh_view_shape (mkApp [] [] "" "All" "" "Medium" "" [] None) w1)
    as (ix & rows & Hr & _).
  rewrite Hr. eexists _, _. split; [reflexivity|]. simpl. split; [reflexivity|].
  rewrite <- Hd1 in Hd. apply (save_tasks_fine [] w1 Hd).
Qed.

Lemma startup_overwrites_unloadable_file_witness :
  exists a0 w0,
    TodoApp_init (Build_Task_class "2025-09-01 08:00:00")
      (mkWorld "2025-09-04 12:00:00" (mkDate 2025 9 4)
         (Some (Doc (JArr [JObj (<["title" := JStr "A"]> ∅); JStr "B"]))) [] 0 [])
    = Some (Ret (a0, w0))
    /\ tasks a0 = []
    /\ file w0 = Some (Doc (JArr [])).
Proof.
  apply (startup_overwrites_unloadable_file (Build_Task_class "2025-09-01 08:00:00")
           (mkWorld "2025-09-04 12:00:00" (mkDate 2025 9 4)
              (Some (Doc (JArr [JObj (<["title" := JStr "A"]> ∅); JStr "B"]))) [] 0 [])).
  - reflexivity.
  - left. reflexivity.
Defined.

(** ** Dates as texts *)

Lemma digit_char_facts (k : nat) :
  k < 10 ->
  is_digit (digit_char k) = true /\ code (digit_char k) - 48 = k
  /\ is_space (digit_char k) = false.
Proof.
  intros H. do 10 (destruct k as [|k]; [vm_compute; auto|]). lia.
Qed.

Lemma re_date_year (a b c e : ascii) (rest : string) :
  is_digit a = true -> is_digit b = true -> is_digit c = true -> is_digit e = true ->
  re_date (String a (String b (String c (String e rest))))
  = '(_, s2) ← lit "-" rest;
    '(m, s3) ← re_m s2;
    '(_, s4) ← lit "-" s3;
    '(d, s5) ← re_d s4;
    [(String a (String b (String c (String e EmptyString))), m, d, s5)].
Proof.
  intros Ha Hb Hc He. unfold re_date, re_Y, cat, chr.
  rewrite Ha. simpl. rewrite Hb. simpl. rewrite Hc. simpl. rewrite He. simpl.
  rewrite app_nil_r. reflexivity.
Qed.

Lemma re_date_month_day (ytext : string) (m d : nat) :
  1 <= m <= 12 -> 1 <= d <= 31 ->
  exists tl,
    ('(_, s2) ← lit "-" ("-" +:+ two_digits m +:+ "-" +:+ two_digits d);
     '(mt, s3) ← re_m s2;
     '(_, s4) ← lit "-" s3;
     '(dt, s5) ← re_d s4;
     [(ytext, mt, dt, s5)])
    = (ytext, two_digits m, two_digits d, "") :: tl.
Proof.
  intros Hm Hd.
  do 13 (try destruct m as [|m]); try lia;
    do 32 (try destruct d as [|d]); try lia;
    vm_compute; eexists; reflexivity.
Qed.

Lemma lstrip_digit (k : nat) (s : string) :
  k < 10 -> lstrip (String (digit_char k) s) = String (digit_char k) s.
Proof.
  intros H. destruct (digit_char_facts k H) as (_ & _ & Hs).
  cbn [lstrip]. rewrite Hs. reflexivity.
Qed.

Lemma int_digits_digit (k : nat) (s : string) (acc : nat) :
  k < 10 -> int_digits (String (digit_char k) s) acc = int_digits s (10 * acc + k).
Proof.
  intros H. destruct (digit_char_facts k H) as (_ & Hc & _).
  cbn [int_digits]. rewrite Hc. reflexivity.
Qed.

Lemma int_digits_end (acc : nat) : int_digits EmptyString acc = acc.
Proof. reflexivity. Qed.

Lemma py_int_two_digits (n : nat) : n < 100 -> py_int (two_digits n) = n.
Proof.
  intros H. unfold py_int, two_digits.
  assert (H1 : n / 10 < 10) by (apply Nat.Div0.div_lt_upper_bound; lia).
  assert (H2 : n mod 10 < 10) by (apply Nat.mod_upper_bound; lia).
  rewrite lstrip_digit by exact H1.
  rewrite !int_digits_digit by assumption. rewrite int_digits_end.
  pose proof (Nat.div_mod_eq n 10). lia.
Qed.

Lemma py_int_four_digits (a b c e : nat) :
  a < 10 -> b < 10 -> c < 10 -> e < 10 ->
  py_int (String (digit_char a) (String (digit_char b)
            (String (digit_char c) (String (digit_char e) EmptyString))))
  = 1000 * a + 100 * b + 10 * c + e.
Proof.
  intros Ha Hb Hc He. unfold py_int.
  rewrite lstrip_digit by exact Ha.
  rewrite !int_digits_digit by assumption. rewrite int_digits_end. lia.
Qed.

Lemma date_new_bounds (y m d : nat) (dt : date) :
  date_new y m d = Ret dt ->
  dt = mkDate y m d
  /\ 1 <= y <= 9999 /\ 1 <= m <= 12 /\ 1 <= d <= days_in_month y m.
Proof.
  unfold date_new. case_match eqn:E; [|discriminate]. intros [= <-].
  rewrite !andb_true_iff, !Nat.leb_le in E. split; [reflexivity | lia].
Qed.

Lemma days_in_month_le (y m : nat) : days_in_month y m <= 31.
Proof.
  unfold days_in_month.
  do 12 (destruct m as [|m]; [try destruct (is_leap y); lia|]).
  lia.
Qed.

Lemma year_max : 9999 = 99 * 101.
Proof. vm_compute. reflexivity. Qed.

Lemma iso_text_unfold (y m d : nat) :
  iso_text (mkDate y m d)
  = String (digit_char (y / 100 / 10))
      (String (digit_char ((y / 100) mod 10))
         (String (digit_char (y mod 100 / 10))
            (String (digit_char ((y mod 100) mod 10))
               ("-" +:+ two_digits m +:+ "-" +:+ two_digits d)))).
Proof. reflexivity. Qed.

Lemma strptime_date_iso (y m d : nat) (dt : date) :
  date_new y m d = Ret dt -> strptime_date (iso_text dt) = Ret dt.
Proof.
  intros H. destruct (date_new_bounds y m d dt H) as (-> & Hy & Hm & Hd).
  pose proof (days_in_month_le y m) as Hle.
  rewrite year_max in Hy.
  assert (Hq : y / 100 < 100) by (apply Nat.Div0.div_lt_upper_bound; lia).
  assert (H1 : y / 100 / 10 < 10) by (apply Nat.Div0.div_lt_upper_bound; lia).
  assert (H2 : (y / 100) mod 10 < 10) by (apply Nat.mod_upper_bound; lia).
  assert (H3 : y mod 100 / 10 < 10)
    by (apply Nat.Div0.div_lt_upper_bound; pose proof (Nat.mod_upper_bound y 100); lia).
  assert (H4 : (y mod 100) mod 10 < 10) by (apply Nat.mod_upper_bound; lia).
  assert (Hsum : 1000 * (y / 100 / 10) + 100 * ((y / 100) mod 10)
                 + 10 * (y mod 100 / 10) + (y mod 100) mod 10 = y).
  { pose proof (Nat.div_mod_eq y 100). pose proof (Nat.div_mod_eq (y / 100) 10).
    pose proof (Nat.div_mod_eq (y mod 100) 10). lia. }
  unfold strptime_date. rewrite iso_text_unfold.
  rewrite re_date_year by (apply digit_char_facts; assumption).
  destruct (re_date_month_day
              (String (digit_char (y / 100 / 10))
                 (String (digit_char ((y / 100) mod 10))
                    (String (digit_char (y mod 100 / 10))
                       (String (digit_char ((y mod 100) mod 10)) EmptyString))))
              m d) as [tl ->]; [lia | lia |].
  cbn [truthy].
  rewrite py_int_four_digits by assumption.
  rewrite (py_int_two_digits m) by lia. rewrite (py_int_two_digits d) by lia.
  rewrite Hsum. exact H.
Qed.

(** X18. The due dates that the program accepts. Every date of the
    calendar (years 1 to 9999), written as YYYY-MM-DD with zeros, is read
    by [strptime] as that date; and whatever text [strptime] reads, the
    result is a date of the calendar: a month from 1 to 12 and a day that
    the month has in that year (29 February only in leap years). *)
Theorem strptime_reads_calendar_dates :
  (forall y m d dt, date_new y m d = Ret dt ->
     strptime_date (iso_text dt) = Ret dt /\ _valid_date (iso_text dt) = Ret true)
  /\ (forall s dt, strptime_date s = Ret dt ->
        1 <= year dt <= 9999 /\ 1 <= month dt <= 12
        /\ 1 <= day dt <= days_in_month (year dt) (month dt)).
Proof.
  split.
  - intros y m d dt H. pose proof (strptime_date_iso y m d dt H) as Hs.
    split; [exact Hs|]. unfold _valid_date. rewrite Hs. reflexivity.
  - intros s dt. unfold strptime_date.
    destruct (re_date s) as [|[[[y m] d] rest] l]; [discriminate|].
    destruct (truthy rest); [discriminate|]. intros H.
    apply date_new_bounds in H as (-> & H). simpl. exact H.
Qed.

Lemma strptime_reads_calendar_dates_witness :
  strptime_date (iso_text (mkDate 2024 2 29)) = Ret (mkDate 2024 2 29)
  /\ _valid_date (iso_text (mkDate 2024 2 29)) = Ret true.
Proof.
  apply (proj1 strptime_reads_calendar_dates 2024 2 29). reflexivity.
Defined.

(** ** Searching *)

Lemma app_assoc_string (a b c : string) : (a +:+ b) +:+ c = a +:+ (b +:+ c).
Proof. induction a as [|x a IH]; [reflexivity|]. rewrite !app_String, IH. reflexivity. Qed.

Lemma app_empty_r (a : string) : a +:+ "" = a.
Proof. induction a as [|x a IH]; [reflexivity|]. rewrite app_String, IH. reflexivity. Qed.

Lemma lower_app (a b : string) : lower (a +:+ b) = lower a +:+ lower b.
Proof. induction a as [|x a IH]; [reflexivity|]. rewrite app_String. simpl. rewrite IH. reflexivity. Qed.

Lemma lstrip_part (s : string) : exists l, s = l +:+ lstrip s.
Proof.
  induction s as [|c s [l IH]]; simpl.
  - exists "". reflexivity.
  - destruct (is_space c).
    + exists (String c l). rewrite app_String. congruence.
    + exists "". reflexivity.
Qed.

Lemma rstrip_part (s : string) : exists r, s = rstrip s +:+ r.
Proof.
  induction s as [|c s [r IH]]; simpl.
  - exists "". reflexivity.
  - destruct (rstrip s) as [|c' s'] eqn:E.
    + destruct (is_space c).
      * exists (String c s). reflexivity.
      * exists r. rewrite app_String. rewrite IH at 1. reflexivity.
    + exists r. rewrite app_String. congruence.
Qed.

Lemma strip_part (s : string) : exists l r, s = l +:+ strip s +:+ r.
Proof.
  unfold strip. destruct (lstrip_part s) as [l Hl].
  destruct (rstrip_part (lstrip s)) as [r Hr].
  exists l, r. rewrite <- Hr. exact Hl.
Qed.

Lemma _matches_search_part (q : string) (t : Task) (pre post : string) :
  haystack t = pre +:+ q +:+ post -> _matches_search q t = true.
Proof.
  intros H. unfold _matches_search.
  destruct (truthy (lower (strip q))); [|reflexivity]. simpl.
  apply contains_spec. destruct (strip_part q) as (l & r & Hq).
  exists (lower (pre +:+ l)), (lower (r +:+ post)).
  rewrite H, Hq at 1. rewrite !lower_app, !app_assoc_string. reflexivity.
Qed.

(** X19. A task is found by what it shows: the title of a task, its
    priority and its due text, each typed as the search text, find that
    task. *)
Theorem search_finds_own_text (t : Task) :
  _matches_search (title t) t = true
  /\ _matches_search (priority t) t = true
  /\ (forall s, due t = Some s -> _matches_search s t = true).
Proof.
  split; [|split].
  - apply (_matches_search_part _ t "" (" " +:+ priority t +:+ " " +:+ opt_or_empty (due t))).
    reflexivity.
  - apply (_matches_search_part _ t (title t +:+ " ") (" " +:+ opt_or_empty (due t))).
    unfold haystack. rewrite !app_assoc_string. reflexivity.
  - intros s Hs.
    apply (_matches_search_part _ t (title t +:+ " " +:+ priority t +:+ " ") "").
    unfold haystack. rewrite Hs, app_empty_r, !app_assoc_string.
    destruct s; reflexivity.
Qed.

Lemma is_space_lower_char (c : ascii) : is_space (lower_char c) = is_space c.
Proof. destruct c as [[] [] [] [] [] [] [] []]; reflexivity. Qed.

Lemma lower_char_idem (c : ascii) : lower_char (lower_char c) = lower_char c.
Proof. destruct c as [[] [] [] [] [] [] [] []]; reflexivity. Qed.

Lemma upper_char_lower_char (c : ascii) : upper_char (lower_char c) = upper_char c.
Proof. destruct c as [[] [] [] [] [] [] [] []]; reflexivity. Qed.

Lemma lower_char_upper_char (c : ascii) : lower_char (upper_char c) = lower_char c.
Proof. destruct c as [[] [] [] [] [] [] [] []]; reflexivity. Qed.

Lemma lower_idem (s : string) : lower (lower s) = lower s.
Proof. induction s as [|c s IH]; simpl; [reflexivity|]. rewrite lower_char_idem, IH. reflexivity. Qed.

Lemma lower_lstrip (s : string) : lower (lstrip s) = lstrip (lower s).
Proof.
  induction s as [|c s IH]; simpl; [reflexivity|].
  rewrite is_space_lower_char. destruct (is_space c); [exact IH | reflexivity].
Qed.

Lemma lower_rstrip (s : string) : lower (rstrip s) = rstrip (lower s).
Proof.
  induction s as [|c s IH]; simpl; [reflexivity|].
  rewrite <- IH, is_space_lower_char.
  destruct (rstrip s); simpl; [destruct (is_space c); reflexivity | reflexivity].
Qed.

Lemma lower_strip (s : string) : lower (strip s) = strip (lower s).
Proof. unfold strip. rewrite lower_rstrip, lower_lstrip. reflexivity. Qed.

(** X20. The search does not look at the case of the query: two queries
    that are equal up to the case of their letters find the same tasks. *)
Theorem search_ignores_case (q1 q2 : string) (t : Task) :
  lower q1 = lower q2 -> _matches_search q1 t = _matches_search q2 t.
Proof.
  intros H. unfold _matches_search. rewrite !lower_strip, H. reflexivity.
Qed.

Lemma search_ignores_case_witness :
  _matches_search "HIGH" (mkTask "A" false "High" None "")
  = _matches_search "high" (mkTask "A" false "High" None "").
Proof.
  apply (search_ignores_case "HIGH" "high" (mkTask "A" false "High" None "")).
  reflexivity.
Defined.

(** ** Two writes for one change *)

Lemma save_tasks_disk (ts : list Task) (w : world) :
  disk (save_tasks ts w) = tail (disk w).
Proof.
  unfold save_tasks, enter_write. destruct (default Fine (head (disk w))); reflexivity.
Qed.

Lemma save_tasks_write_fails (ts : list Task) (w : world) :
  default Fine (head (disk w)) = WriteFails ->
  file (save_tasks ts w) = Some Cut
  /\ shown (save_tasks ts w) = (shown w ++ [showerror "Save Error"])%list.
Proof. unfold save_tasks, enter_write. intros ->. auto. Qed.

(** X21. A handler that changes the store saves it twice, once itself and
    once at the end of [refresh_view], and the second write decides what
    the file holds. For [add_task]: if the second write goes well the
    file holds the new store even when the first write failed; if the
    second write fails the file is left cut short and Save Error is
    shown, even when the first write had saved the new store. *)
Theorem add_task_second_write_decides (cls : Task_class) (a : TodoApp) (w : world) :
  strip (title_var a) <> "" ->
  strip (due_var a) = "" \/ parseable (strip (due_var a)) ->
  exists a' w',
    add_task cls a w = Ret (a', w')
    /\ (default Fine (head (tail (disk w))) = Fine ->
        file w' = Some (Doc (dumped (tasks a'))))
    /\ (default Fine (head (tail (disk w))) = WriteFails ->
        file w' = Some Cut /\ showerror "Save Error" ∈ shown w').
Proof.
  intros Ht Hd. destruct (add_task_accepts cls a w Ht Hd) as (ix & rows & Hr & _).
  eexists _, _. split; [exact Hr|]. simpl. split.
  - intros H. apply save_tasks_fine. rewrite save_tasks_disk. exact H.
  - intros H.
    match goal with
    | |- context [save_tasks ?ts (save_tasks ?ts ?w0)] =>
        destruct (save_tasks_write_fails ts (save_tasks ts w0)) as [Hf Hs]
    end.
    { rewrite save_tasks_disk. exact H. }
    split; [exact Hf|]. rewrite Hs. apply elem_of_app. right. left.
Qed.

Lemma add_task_second_write_decides_witness :
  exists a' w',
    add_task (Build_Task_class "2025-09-01 08:00:00") (entries "A" "High" "")
      (mkWorld "2025-09-04 12:00:00" (mkDate 2025 9 4) (Some (Doc (JArr [])))
         [Fine; WriteFails] 0 [])
    = Ret (a', w')
    /\ file w' = Some Cut.
Proof.
  destruct (add_task_second_write_decides (Build_Task_class "2025-09-01 08:00:00")
              (entries "A" "High" "")
              (mkWorld "2025-09-04 12:00:00" (mkDate 2025 9 4) (Some (Doc (JArr [])))
                 [Fine; WriteFails] 0 []))
    as (a' & w' & Hr & _ & Hc).
  - discriminate.
  - left. reflexivity.
  - exists a', w'. split; [exact Hr|]. apply Hc. reflexivity.
Defined.

(** ** The priority answer of the edit dialog *)

Lemma capitalize_lower (p : string) : capitalize (lower p) = capitalize p.
Proof.
  destruct p as [|c p]; simpl; [reflexivity|].
  rewrite upper_char_lower_char, lower_idem. reflexivity.
Qed.

Lemma lower_capitalize (p : string) : lower (capitalize p) = lower p.
Proof.
  destruct p as [|c p]; simpl; [reflexivity|].
  rewrite lower_char_upper_char, lower_idem. reflexivity.
Qed.

Lemma listed_capitalize (p : string) :
  listed_priority (capitalize p) <-> lower p ∈ ["low"; "medium"; "high"].
Proof.
  unfold listed_priority. rewrite !elem_of_cons, !elem_of_nil. split.
  - intros H. rewrite <- lower_capitalize.
    destruct H as [->|[->|[->|[]]]]; auto.
  - intros H. rewrite <- capitalize_lower.
    destruct H as [->|[->|[->|[]]]]; auto.
Qed.

(** X22. The edit dialog takes the priority in any letter case and stores
    it in the one listed spelling: an answer that reads low, medium or
    high when its letters are lowered is accepted and stored as Low,
    Medium or High; any other answer (also one with spaces around it)
    gives the warning Invalid Priority and changes nothing. *)
Theorem edit_selected_priority_case (x p d : string) (a : TodoApp) (w : world)
    (idx : nat) (t : Task) :
  _selected_index a = Some idx ->
  tasks a !! idx = Some t ->
  (lower p ∉ ["low"; "medium"; "high"] ->
   edit_selected (Some x) (Some p) (Some d) a w
   = Ret (a, say (showwarning "Invalid Priority") w))
  /\ (lower p ∈ ["low"; "medium"; "high"] ->
      strip d = "" \/ parseable (strip d) ->
      exists a' w' t',
        edit_selected (Some x) (Some p) (Some d) a w = Ret (a', w')
        /\ tasks a' !! idx = Some t'
        /\ listed_priority (priority t')
        /\ lower (priority t') = lower p).
Proof.
  intros Hsel Ht. unfold edit_selected. rewrite Hsel, Ht.
  destruct (listed_priority_decide (capitalize p)) as [Hin Hout]. split.
  - intros H. rewrite Hout; [reflexivity|]. rewrite listed_capitalize. exact H.
  - intros H Hd. apply listed_capitalize in H. rewrite (Hin H). simpl.
    destruct (due_entry_cases d) as [(_ & _ & ->)|[(_ & _ & ->)|(Hne & Hp & _)]].
    3: { destruct Hd; contradiction. }
    all: simpl;
      match goal with
      | |- context [refresh_view (with_tasks ?ts ?a0) _] =>
          destruct (commit_returns a0 ts w) as (ix & rows & Hr & _)
      end;
      rewrite Hr; eexists _, _, _; (split; [reflexivity|]); simpl;
      (split; [apply list_lookup_insert_eq; eapply lookup_lt_Some, Ht|]);
      simpl; split; [exact H | apply lower_capitalize].
Qed.

Lemma edit_selected_priority_case_witness :
  edit_selected (Some "A") (Some " high") (Some "")
    (mkApp [mkTask "A" false "Low" None "c1"] [0] "" "All" "" "Medium" "" [] (Some 0%Z))
    (mkWorld "" (mkDate 2025 9 4) None [] 0 [])
  = Ret (mkApp [mkTask "A" false "Low" None "c1"] [0] "" "All" "" "Medium" "" []
           (Some 0%Z),
         say (showwarning "Invalid Priority") (mkWorld "" (mkDate 2025 9 4) None [] 0 []))
  /\ exists a' w' t',
       edit_selected (Some "A") (Some "hIGH") (Some "")
         (mkApp [mkTask "A" false "Low" None "c1"] [0] "" "All" "" "Medium" "" []
                (Some 0%Z))
         (mkWorld "" (mkDate 2025 9 4) None [] 0 []) = Ret (a', w')
       /\ tasks a' !! 0 = Some t'
       /\ listed_priority (priority t').
Proof.
  split.
  - apply (edit_selected_priority_case "A" " high" ""
             (mkApp [mkTask "A" false "Low" None "c1"] [0] "" "All" "" "Medium" "" []
                    (Some 0%Z))
             (mkWorld "" (mkDate 2025 9 4) None [] 0 []) 0
             (mkTask "A" false "Low" None "c1") eq_refl eq_refl).
    rewrite !not_elem_of_cons. repeat split; try discriminate. apply not_elem_of_nil.
  - destruct (proj2 (edit_selected_priority_case "A" "hIGH" ""
                (mkApp [mkTask "A" false "Low" None "c1"] [0] "" "All" "" "Medium" "" []
                       (Some 0%Z))
                (mkWorld "" (mkDate 2025 9 4) None [] 0 []) 0
                (mkTask "A" false "Low" None "c1") eq_refl eq_refl))
      as (a' & w' & t' & Hr & Ht' & Hl & _).
    + right. right. left.
    + left. reflexivity.
    + exists a', w', t'. auto.
Defined.
